(** * Settlers4 ASI loader: a model of [S4_ASI_Loader/dllmain.cpp]

    The loader is a DLL that the host executable maps at start-up.  Its
    [DllMain] patches one call site of the host, pins itself and starts a
    worker thread running [AsiLoad]; [AsiLoad] enumerates [plugins\*.asi]
    next to the host executable, maps every plugin and records the
    exported [InitAsi] entry points; the patched call site lands in
    [WaitForPlugins], which joins the worker and calls the recorded entry
    points.

    The operating system is a record of oracles ([World]); what the loader
    does to the outside is a list of [Event]s; the three globals of the
    translation unit are the [State].  Pointers and handles are integers,
    [0] being the null pointer, as in the source. *)

From Stdlib Require Import ZArith Bool List String Ascii Lia Sorting.Sorted.
From Stdlib Require DecimalString HexadecimalString.
Import ListNotations.

Local Open Scope string_scope.
Local Open Scope Z_scope.

(** ** Constants of the Windows headers used by the source *)

Definition MAX_PATH : Z := 260.
Definition FILE_ATTRIBUTE_DIRECTORY : Z := 0x10.
Definition DLL_PROCESS_ATTACH : Z := 1.
Definition INFINITE : Z := 0xFFFFFFFF.
Definition WAIT_OBJECT_0 : Z := 0.
Definition TRUE : Z := 1.
Definition MB_OK : Z := 0x0.
Definition MB_ICONERROR : Z := 0x10.
Definition MB_ICONEXCLAMATION : Z := 0x30.
Definition MB_SETFOREGROUND : Z := 0x10000.
Definition MB_TOPMOST : Z := 0x40000.
Definition GET_MODULE_HANDLE_EX_FLAG_FROM_ADDRESS : Z := 0x4.

(** A [DWORD] is a 32-bit unsigned integer. *)
Definition DWORD (z : Z) : Z := z mod 2 ^ 32.

(** ** Constants of the translation unit *)

Definition PLUGINFILTER : string := "*.asi".
Definition PLUGINDIR : string := "plugins\".

(** [_countof(PLUGINDIR PLUGINFILTER)]: the characters and the terminator. *)
Definition countof_PLUGINDIR_PLUGINFILTER : Z :=
  Z.of_nat (String.length (PLUGINDIR ++ PLUGINFILTER)) + 1.

(** [_countof(filename)] for
    [wchar_t filename[MAX_PATH + 1 + _countof(PLUGINDIR PLUGINFILTER)]]. *)
Definition countof_filename : Z := MAX_PATH + 1 + countof_PLUGINDIR_PLUGINFILTER.

(** ** Text formatting *)

Definition nl : string := String "010"%char "".

(** [%d] applied to a [DWORD]: the 32 bits are printed as a signed [int]. *)
Definition fmt_d (v : Z) : string :=
  let u := DWORD v in
  DecimalString.NilZero.string_of_int (Z.to_int (if u <? 2 ^ 31 then u else u - 2 ^ 32)).

(** [std::to_string] applied to a [DWORD]: unsigned decimal. *)
Definition to_string (v : Z) : string :=
  DecimalString.NilZero.string_of_uint (N.to_uint (Z.to_N (DWORD v))).

(** [std::format("{:x}", v)]: lower-case hexadecimal without prefix. *)
Definition format_x (v : Z) : string :=
  HexadecimalString.NilZero.string_of_uint (N.to_hex_uint (Z.to_N (DWORD v))).

(** ** [PathMatchSpec]

    The shell's wildcard match of a file name against one mask: [*] stands
    for any run of characters, [?] for any one character, every other
    character for itself, letters compared without regard to case. *)

Definition toupper (c : ascii) : ascii :=
  let n := N_of_ascii c in
  if ((97 <=? n) && (n <=? 122))%N then ascii_of_N (n - 32) else c.

Definition tolower (c : ascii) : ascii :=
  let n := N_of_ascii c in
  if ((65 <=? n) && (n <=? 90))%N then ascii_of_N (n + 32) else c.

Fixpoint string_map (f : ascii -> ascii) (s : string) : string :=
  match s with
  | EmptyString => EmptyString
  | String c s' => String (f c) (string_map f s')
  end.

Fixpoint PathMatchSpec_from (mask : string) : string -> bool :=
  match mask with
  | EmptyString => fun name => match name with EmptyString => true | _ => false end
  | String m mask' =>
      if Ascii.eqb m "*" then
        fix star (name : string) : bool :=
          PathMatchSpec_from mask' name
          || match name with
             | EmptyString => false
             | String _ name' => star name'
             end
      else
        fun name =>
          match name with
          | EmptyString => false
          | String c name' =>
              (Ascii.eqb m "?" || Ascii.eqb (toupper m) (toupper c))
              && PathMatchSpec_from mask' name'
          end
  end.

Definition PathMatchSpec (pszFile pszSpec : string) : bool :=
  PathMatchSpec_from pszSpec pszFile.

(** ** [std::set<std::wstring>]

    The set orders its keys with [std::less<std::wstring>], that is by
    [basic_string::compare]: code unit by code unit, a proper prefix
    first.  That is [String.compare].  The set is kept as the list of its
    keys in iteration order. *)

Definition wstring_less (a b : string) : Prop := String.compare a b = Lt.

Fixpoint emplace (x : string) (s : list string) : list string :=
  match s with
  | [] => [x]
  | y :: s' =>
      match String.compare x y with
      | Lt => x :: y :: s'
      | Eq => y :: s'
      | Gt => y :: emplace x s'
      end
  end.

(** ** The operating system *)

Record WIN32_FIND_DATA : Type := mkFindData {
  dwFileAttributes : Z;
  cFileName : string
}.

(** The calls after which the source reads [GetLastError]. *)
Inductive ApiCall : Type :=
| ApiGetModuleHandle
| ApiGetModuleFileName
| ApiLoadLibrary (lpLibFileName : string)
| ApiWaitForSingleObject (hHandle : Z).

Record World : Type := mkWorld {
  (** [GetModuleHandle(NULL)]: the base of the host executable, [0] on failure *)
  GetModuleHandle : Z;
  (** the path [GetModuleFileName] reports for a module, empty on failure *)
  GetModuleFileName : Z -> string;
  (** the entries [FindFirstFile]/[FindNextFile] yield for a search
      pattern, in the order of the enumeration; no entry at all is
      [INVALID_HANDLE_VALUE] *)
  FindFiles : string -> list WIN32_FIND_DATA;
  (** [LoadLibrary]: the module handle, [0] on failure *)
  LoadLibrary : string -> Z;
  (** [GetProcAddress]: the address of the export, [0] when there is none *)
  GetProcAddress : Z -> string -> Z;
  GetLastError : ApiCall -> Z;
  (** [WaitForSingleObject]: the wait status *)
  WaitForSingleObject : Z -> Z -> Z;
  (** [hlib::CallPatch(address, destination).patch()] *)
  CallPatch_patch : Z -> Z -> bool;
  (** [GetModuleHandleExW(flags, address, &mod)]: the module on success *)
  GetModuleHandleExW : Z -> Z -> option Z;
  (** [CreateThread(..., start, parameter, ...)]: the thread handle, [0] on failure *)
  CreateThread : Z -> Z -> Z;
  (** the addresses of the loader's own functions *)
  addr_AsiLoad : Z;
  addr_WaitForPlugins : Z
}.

(** ** What the loader does to the outside *)

Inductive Event : Type :=
| EvMessageBox (lpText lpCaption : string) (uType : Z)
| EvExitProcess (uExitCode : Z)
| EvFindFirstFile (lpFileName : string)
| EvLoadLibrary (lpLibFileName : string)
| EvInitAsi (init : Z)
| EvWaitForSingleObject (hHandle dwMilliseconds : Z)
| EvCallPatch (address destination : Z)
| EvGetModuleHandleExW (dwFlags lpModuleName : Z)
| EvCreateThread (lpStartAddress lpParameter : Z)
| EvFreeLibrary (hLibModule : Z).

(** ** The globals *)

Record State : Type := mkState {
  initialise_vectors : list Z;
  loader_init_thread_handle : Z;
  loader_init_thread_running : bool
}.

Definition initial_state : State :=
  {| initialise_vectors := [];
     loader_init_thread_handle := 0;
     loader_init_thread_running := false |}.

(** ** Computations

    A computation runs from a state; it returns, or the process ends in
    [ExitProcess], or it leaves defined behaviour ([Fault]: an access
    outside an array, or the invalid-parameter handler of a [_s]
    function).  [trace] lists the events in the order they happened. *)

Inductive Result (A : Type) : Type :=
| Normal (a : A)
| Exited (uExitCode : Z)
| Fault.
Arguments Normal {A} a.
Arguments Exited {A} uExitCode.
Arguments Fault {A}.

Record Run (A : Type) : Type := mkRun {
  result : Result A;
  final : State;
  trace : list Event
}.
Arguments mkRun {A} result final trace.
Arguments result {A} r.
Arguments final {A} r.
Arguments trace {A} r.

Definition M (A : Type) : Type := State -> Run A.

Definition ret {A : Type} (a : A) : M A := fun st => mkRun (Normal a) st [].

Definition bind {A B : Type} (m : M A) (k : A -> M B) : M B :=
  fun st =>
    let r := m st in
    match result r with
    | Normal a =>
        let r' := k a (final r) in
        mkRun (result r') (final r') (trace r ++ trace r')
    | Exited c => mkRun (Exited c) (final r) (trace r)
    | Fault => mkRun Fault (final r) (trace r)
    end.

Notation "x <- m ;; k" := (bind m (fun x => k))
  (at level 61, m at next level, right associativity).
Notation "m ;; k" := (bind m (fun _ => k))
  (at level 61, right associativity).

Definition emit (e : Event) : M unit := fun st => mkRun (Normal tt) st [e].
Definition fault {A : Type} : M A := fun st => mkRun Fault st [].
Definition get : M State := fun st => mkRun (Normal st) st [].
Definition put (st : State) : M unit := fun _ => mkRun (Normal tt) st [].

Definition ExitProcess {A : Type} (uExitCode : Z) : M A :=
  fun st => mkRun (Exited uExitCode) st [EvExitProcess uExitCode].

(** [initialise_vectors.push_back(init)] *)
Definition push_back (init : Z) : M unit :=
  st <- get ;;
  put {| initialise_vectors := initialise_vectors st ++ [init];
         loader_init_thread_handle := loader_init_thread_handle st;
         loader_init_thread_running := loader_init_thread_running st |}.

(** [loader_init_thread_handle = h] *)
Definition set_handle (h : Z) : M unit :=
  st <- get ;;
  put {| initialise_vectors := initialise_vectors st;
         loader_init_thread_handle := h;
         loader_init_thread_running := loader_init_thread_running st |}.

(** ** [ERROR_BOX] *)

(** The dialog of the macro: the text, a blank line and the code of
    [GetLastError]. *)
Definition fatal_dialog (w : World) (err : string) (call : ApiCall) : Event :=
  EvMessageBox (err ++ nl ++ nl ++ "Error Code " ++ fmt_d (GetLastError w call) ++ ".")
    "ASI LOADER ERROR" (Z.lor MB_ICONERROR (Z.lor MB_TOPMOST MB_SETFOREGROUND)).

Definition ERROR_BOX {A : Type} (w : World) (err : string) (call : ApiCall) : M A :=
  emit (fatal_dialog w err call) ;;
  ExitProcess 0.

(** ** [AsiLoad] *)

(** The characters [GetModuleFileName(main, filename, MAX_PATH)] leaves in
    the buffer: at most [MAX_PATH] of them. *)
Definition exe_filename (w : World) : string :=
  String.substring 0 (Z.to_nat MAX_PATH) (GetModuleFileName w (GetModuleHandle w)).

(** The loop [for (--len; len >= 0; len--)]: the index after the last
    backslash of the buffer.  [len] is unsigned, so the loop has no lower
    bound: without a backslash it reads before the buffer ([None]). *)
Fixpoint directory_end (filename : string) : option nat :=
  match filename with
  | EmptyString => None
  | String c rest =>
      match directory_end rest with
      | Some n => Some (S n)
      | None => if Ascii.eqb c "\" then Some 1%nat else None
      end
  end.

(** The body of the [do ... while (FindNextFile(...))] loop, once per entry. *)
Definition collect (plugins : list string) (ffd : WIN32_FIND_DATA) : list string :=
  if negb (Z.land (dwFileAttributes ffd) FILE_ATTRIBUTE_DIRECTORY =? 0) then plugins
  else if negb (PathMatchSpec (cFileName ffd) PLUGINFILTER) then plugins
  else emplace (cFileName ffd) plugins.

Definition collect_all (entries : list WIN32_FIND_DATA) : list string :=
  fold_left collect entries [].

(** The warning of a plugin that does not load. *)
Definition load_warning (w : World) (filename : string) : Event :=
  EvMessageBox
    ("Cannot load plugin" ++ nl ++ filename ++ nl ++ nl ++ "Error Code "
       ++ fmt_d (GetLastError w (ApiLoadLibrary filename)) ++ ".")
    "ASI LOADER ERROR"
    (Z.lor MB_ICONEXCLAMATION (Z.lor MB_OK (Z.lor MB_TOPMOST MB_SETFOREGROUND))).

(** The loop [for (auto& plugin : plugins)].  [plugindir] is the buffer up
    to [pluginname]; [wcscpy_s] calls the invalid-parameter handler when
    the name and its terminator do not fit the [remainingLen] characters. *)
Fixpoint load_plugins (w : World) (plugindir : string) (remainingLen : Z)
    (plugins : list string) : M unit :=
  match plugins with
  | [] => ret tt
  | plugin :: rest =>
      if Z.of_nat (String.length plugin) <? remainingLen then
        let filename := plugindir ++ plugin in
        emit (EvLoadLibrary filename) ;;
        (let hMod := LoadLibrary w filename in
         if hMod =? 0 then emit (load_warning w filename)
         else
           let init := GetProcAddress w hMod "InitAsi" in
           if init =? 0 then ret tt else push_back init) ;;
        load_plugins w plugindir remainingLen rest
      else fault
  end.

Definition AsiLoad (w : World) (hModule : Z) : M Z :=
  let main := GetModuleHandle w in
  if main =? 0 then ERROR_BOX w "Cannot get module handle of your exe." ApiGetModuleHandle
  else
    let filename := exe_filename w in
    let len := DWORD (Z.of_nat (String.length filename)) in
    if len <=? 0 then ERROR_BOX w "Cannot get file name of your exe." ApiGetModuleFileName
    else
      match directory_end filename with
      | None => fault
      | Some n =>
          let directory := String.substring 0 n filename in
          let plugindir := directory ++ PLUGINDIR in
          let len := DWORD (Z.of_nat n + (Z.of_nat (String.length PLUGINDIR) + 1) - 1) in
          let remainingLen := DWORD (countof_filename - len) in
          emit (EvFindFirstFile (plugindir ++ PLUGINFILTER)) ;;
          match FindFiles w (plugindir ++ PLUGINFILTER) with
          | [] => ret 0
          | entries =>
              load_plugins w plugindir remainingLen (collect_all entries) ;;
              ret 0
          end
      end.

(** ** [WaitForPlugins] *)

Definition wait_failed_message (w : World) (h status : Z) : string :=
  "Failed to wait for asi loader thread (status code: " ++ format_x status ++ "): "
    ++ to_string (GetLastError w (ApiWaitForSingleObject h)).

Fixpoint call_all (inits : list Z) : M unit :=
  match inits with
  | [] => ret tt
  | init :: rest => emit (EvInitAsi init) ;; call_all rest
  end.

Definition WaitForPlugins (w : World) : M Z :=
  st <- get ;;
  (let h := loader_init_thread_handle st in
   if negb (h =? 0) then
     emit (EvWaitForSingleObject h INFINITE) ;;
     (let status := WaitForSingleObject w h INFINITE in
      if negb (status =? WAIT_OBJECT_0) then
        emit (EvMessageBox (wait_failed_message w h status) "ASI Loader - Error" MB_OK)
      else ret tt) ;;
     set_handle 0
   else
     emit (EvMessageBox "asi loader thread failed to correctly initialize"
             "ASI Loader - Error" MB_OK)) ;;
  st' <- get ;;
  call_all (initialise_vectors st') ;;
  ret 1.

(** ** [DllMain] *)

(** The patched call site, relative to the base of the host. *)
Definition S4_Main_offset : Z := 0x5C489.

Definition DllMain (w : World) (hModule ul_reason_for_call lpReserved : Z) : M Z :=
  (if ul_reason_for_call =? DLL_PROCESS_ATTACH then
     let S4_Main := DWORD (GetModuleHandle w) in
     let address := DWORD (S4_Main + S4_Main_offset) in
     emit (EvCallPatch address (DWORD (addr_WaitForPlugins w))) ;;
     (if negb (CallPatch_patch w address (DWORD (addr_WaitForPlugins w))) then
        emit (EvMessageBox "Failed to patch the main function" "ASI Loader - Error" MB_OK)
      else ret tt) ;;
     emit (EvGetModuleHandleExW GET_MODULE_HANDLE_EX_FLAG_FROM_ADDRESS (addr_AsiLoad w)) ;;
     match GetModuleHandleExW w GET_MODULE_HANDLE_EX_FLAG_FROM_ADDRESS (addr_AsiLoad w) with
     | Some mod_ =>
         emit (EvCreateThread (addr_AsiLoad w) hModule) ;;
         set_handle (CreateThread w (addr_AsiLoad w) hModule) ;;
         st <- get ;;
         if loader_init_thread_handle st =? 0 then
           AsiLoad w 0 ;;
           emit (EvFreeLibrary mod_)
         else ret tt
     | None =>
         AsiLoad w 0 ;;
         ret tt
     end
   else ret tt) ;;
  ret TRUE.

(** ** The process

    [DllMain] runs once on process attach.  When it created the worker
    thread, the thread runs [AsiLoad] with the parameter [CreateThread]
    was given; the join in [WaitForPlugins] has no time limit, so the
    worker is placed before the first run of the trigger.  [reached] is
    the number of times the host runs the patched call site. *)

Definition worker (w : World) (hModule : Z) : M unit :=
  st <- get ;;
  if loader_init_thread_handle st =? 0 then ret tt
  else AsiLoad w hModule ;; ret tt.

Fixpoint fire (w : World) (reached : nat) : M unit :=
  match reached with
  | O => ret tt
  | S n => WaitForPlugins w ;; fire w n
  end.

Definition startup (w : World) (hModule : Z) : M unit :=
  DllMain w hModule DLL_PROCESS_ATTACH 0 ;;
  worker w hModule.

Definition lifetime (w : World) (hModule : Z) (reached : nat) : Run unit :=
  (startup w hModule ;; fire w reached) initial_state.

(** ** Vocabulary of the properties *)

(** The entry points called in a trace, in the order of the calls. *)
Fixpoint calls (t : list Event) : list Z :=
  match t with
  | [] => []
  | EvInitAsi init :: t' => init :: calls t'
  | _ :: t' => calls t'
  end.

(** The dialogs shown in a trace, in the order they were shown. *)
Fixpoint dialogs (t : list Event) : list Event :=
  match t with
  | [] => []
  | EvMessageBox text caption type :: t' => EvMessageBox text caption type :: dialogs t'
  | _ :: t' => dialogs t'
  end.

(** The paths handed to [LoadLibrary] in a trace, in the order of the calls. *)
Fixpoint loads (t : list Event) : list string :=
  match t with
  | [] => []
  | EvLoadLibrary f :: t' => f :: loads t'
  | _ :: t' => loads t'
  end.

(** The search patterns handed to [FindFirstFile] in a trace. *)
Fixpoint searches (t : list Event) : list string :=
  match t with
  | [] => []
  | EvFindFirstFile f :: t' => f :: searches t'
  | _ :: t' => searches t'
  end.

(** A directory entry that is not a directory and whose name matches
    [PLUGINFILTER]. *)
Definition accepted (ffd : WIN32_FIND_DATA) : bool :=
  (Z.land (dwFileAttributes ffd) FILE_ATTRIBUTE_DIRECTORY =? 0)
  && PathMatchSpec (cFileName ffd) PLUGINFILTER.

(** A name that is some characters followed by [.asi], in any case, and
    nothing after it. *)
Definition ends_with_asi (name : string) : Prop :=
  exists stem ext, name = stem ++ ext /\ string_map toupper ext = ".ASI".

(** The host was identified: its module handle is not null and its path
    has a directory part of [n] characters. *)
Definition host_identified (w : World) (n : nat) : Prop :=
  GetModuleHandle w <> 0 /\ directory_end (exe_filename w) = Some n.

(** The directory of the plugins, the search pattern and the room left in
    the buffer, for a host whose directory part has [n] characters. *)
Definition plugin_directory (w : World) (n : nat) : string :=
  String.substring 0 n (exe_filename w) ++ PLUGINDIR.

Definition search_pattern (w : World) (n : nat) : string :=
  plugin_directory w n ++ PLUGINFILTER.

Definition room (n : nat) : Z :=
  DWORD (countof_filename
         - DWORD (Z.of_nat n + (Z.of_nat (String.length PLUGINDIR) + 1) - 1)).

(** The plugins of a world in the order they are loaded. *)
Definition discovered (w : World) (n : nat) : list string :=
  collect_all (FindFiles w (search_pattern w n)).

(** Every name fits the buffer behind the directory. *)
Definition names_fit (n : nat) (plugins : list string) : Prop :=
  Forall (fun plugin => Z.of_nat (String.length plugin) < room n) plugins.

(** What loading one plugin shows and records. *)
Definition plugin_events (w : World) (plugindir plugin : string) : list Event :=
  EvLoadLibrary (plugindir ++ plugin)
  :: (if LoadLibrary w (plugindir ++ plugin) =? 0
      then [load_warning w (plugindir ++ plugin)] else []).

Definition plugin_inits (w : World) (plugindir plugin : string) : list Z :=
  if LoadLibrary w (plugindir ++ plugin) =? 0 then []
  else if GetProcAddress w (LoadLibrary w (plugindir ++ plugin)) "InitAsi" =? 0 then []
       else [GetProcAddress w (LoadLibrary w (plugindir ++ plugin)) "InitAsi"].

(** The plugins the loop reaches: those before the first name that does
    not fit the [remainingLen] characters of the buffer. *)
Fixpoint fitting (remainingLen : Z) (plugins : list string) : list string :=
  match plugins with
  | [] => []
  | plugin :: rest =>
      if Z.of_nat (String.length plugin) <? remainingLen
      then plugin :: fitting remainingLen rest else []
  end.

Definition all_fit (remainingLen : Z) (plugins : list string) : bool :=
  forallb (fun plugin => Z.of_nat (String.length plugin) <? remainingLen) plugins.

(** What the trigger does about the worker before it calls the entry points. *)
Definition join_events (w : World) (st : State) : list Event :=
  let h := loader_init_thread_handle st in
  if h =? 0 then
    [EvMessageBox "asi loader thread failed to correctly initialize"
       "ASI Loader - Error" MB_OK]
  else
    EvWaitForSingleObject h INFINITE
    :: (if WaitForSingleObject w h INFINITE =? WAIT_OBJECT_0 then []
        else [EvMessageBox (wait_failed_message w h (WaitForSingleObject w h INFINITE))
                "ASI Loader - Error" MB_OK]).

(** The state with more entry points recorded. *)
Definition recorded (inits : list Z) (st : State) : State :=
  {| initialise_vectors := initialise_vectors st ++ inits;
     loader_init_thread_handle := loader_init_thread_handle st;
     loader_init_thread_running := loader_init_thread_running st |}.

(** The state with another worker handle, and with the handle cleared. *)
Definition with_handle (h : Z) (st : State) : State :=
  {| initialise_vectors := initialise_vectors st;
     loader_init_thread_handle := h;
     loader_init_thread_running := loader_init_thread_running st |}.

Definition joined (st : State) : State := with_handle 0 st.

(** The address [DllMain] patches, and what the patch of a world answers. *)
Definition patch_address (w : World) : Z :=
  DWORD (DWORD (GetModuleHandle w) + S4_Main_offset).

Definition patched (w : World) : bool :=
  CallPatch_patch w (patch_address w) (DWORD (addr_WaitForPlugins w)).

(** The self-lookup by address that pins the loader. *)
Definition pin (w : World) : option Z :=
  GetModuleHandleExW w GET_MODULE_HANDLE_EX_FLAG_FROM_ADDRESS (addr_AsiLoad w).

Definition patch_dialog (w : World) : list Event :=
  if patched w then []
  else [EvMessageBox "Failed to patch the main function" "ASI Loader - Error" MB_OK].

(** What [DllMain] does on attach before it turns to the worker. *)
Definition attach_events (w : World) : list Event :=
  (EvCallPatch (patch_address w) (DWORD (addr_WaitForPlugins w)) :: patch_dialog w)
  ++ [EvGetModuleHandleExW GET_MODULE_HANDLE_EX_FLAG_FROM_ADDRESS (addr_AsiLoad w)].

(** The result of a caller that returns [b] after a call that ended in [r]. *)
Definition then_return {A B : Type} (r : Result A) (b : B) : Result B :=
  match r with
  | Normal _ => Normal b
  | Exited c => Exited c
  | Fault => Fault
  end.

Definition returned {A : Type} (r : Result A) : bool :=
  match r with
  | Normal _ => true
  | _ => false
  end.

(** The worker handle [DllMain] leaves behind when it starts from the
    initial state. *)
Definition spawned (w : World) (hModule : Z) : Z :=
  match pin w with
  | Some _ => CreateThread w (addr_AsiLoad w) hModule
  | None => 0
  end.

(** The events of [AsiLoad] for an identified host whose plugin names fit. *)
Definition load_events (w : World) (n : nat) : list Event :=
  EvFindFirstFile (search_pattern w n)
  :: flat_map (plugin_events w (plugin_directory w n)) (discovered w n).

(** The entry points of the plugins of a world, in the order of loading. *)
Definition loaded_inits (w : World) (n : nat) : list Z :=
  flat_map (plugin_inits w (plugin_directory w n)) (discovered w n).

(** The events of [DllMain] and of the worker. *)
Definition startup_events (w : World) (n : nat) (hModule : Z) : list Event :=
  attach_events w
  ++ match pin w with
     | Some m =>
         EvCreateThread (addr_AsiLoad w) hModule
         :: load_events w n
         ++ (if CreateThread w (addr_AsiLoad w) hModule =? 0
             then [EvFreeLibrary m] else [])
     | None => load_events w n
     end.

(** The globals once [DllMain] and the worker are done. *)
Definition loaded_state (w : World) (n : nat) (hModule : Z) : State :=
  with_handle (spawned w hModule) (recorded (loaded_inits w n) initial_state).

(** The events of [reached] runs of the trigger. *)
Fixpoint fire_events (w : World) (reached : nat) (st : State) : list Event :=
  match reached with
  | O => []
  | S k =>
      (join_events w st ++ map EvInitAsi (initialise_vectors st))
      ++ fire_events w k (joined st)
  end.

(** ** The order and the sequence of steps as the specification words them *)

(** Comparison of two names without regard to the case of the letters. *)
Definition compare_nocase (a b : string) : comparison :=
  String.compare (string_map tolower a) (string_map tolower b).

Fixpoint insert_nocase (x : string) (l : list string) : list string :=
  match l with
  | [] => [x]
  | y :: l' =>
      match compare_nocase x y with
      | Gt => y :: insert_nocase x l'
      | _ => x :: y :: l'
      end
  end.

(** Specification side: the names in case-insensitive ascending
    lexicographic order. *)
Definition case_insensitive_order (names : list string) : list string :=
  fold_right insert_nocase [] names.

Definition is_pin (e : Event) : bool :=
  match e with EvGetModuleHandleExW _ _ => true | _ => false end.

Definition is_patch (e : Event) : bool :=
  match e with EvCallPatch _ _ => true | _ => false end.

Definition is_start (e : Event) : bool :=
  match e with EvCreateThread _ _ => true | _ => false end.

(** The position of the first event of a kind. *)
Fixpoint position (kind : Event -> bool) (t : list Event) : option nat :=
  match t with
  | [] => None
  | e :: t' => if kind e then Some 0%nat else option_map S (position kind t')
  end.

(** Both kinds of event occur, the first of one before the first of the other. *)
Definition before (first second : Event -> bool) (t : list Event) : bool :=
  match position first t, position second t with
  | Some i, Some j => (i <? j)%nat
  | _, _ => false
  end.

(** Specification side: pin, then patch, then start of the worker. *)
Definition pin_patch_start (t : list Event) : bool :=
  before is_pin is_patch t && before is_patch is_start t.

(** What the source does: patch, then pin, then start of the worker. *)
Definition patch_pin_start (t : list Event) : bool :=
  before is_patch is_pin t && before is_pin is_start t.

(** ** Worlds to run the loader in *)

Fixpoint lookup_path (key : string) (table : list (string * Z)) : Z :=
  match table with
  | [] => 0
  | (k, v) :: rest => if String.eqb key k then v else lookup_path key rest
  end.

Fixpoint lookup_module (key : Z) (table : list (Z * Z)) : Z :=
  match table with
  | [] => 0
  | (k, v) :: rest => if key =? k then v else lookup_module key rest
  end.

Definition file (name : string) : WIN32_FIND_DATA :=
  {| dwFileAttributes := 0x20; cFileName := name |}.

Definition directory (name : string) : WIN32_FIND_DATA :=
  {| dwFileAttributes := 0x10; cFileName := name |}.

(** A host at [C:\S4\S4_Main.exe] mapped at [0x400000]; the loader at
    [0x10000000]; [entries] in the plugins directory; [modules] maps the
    paths that load to their module, [exports] the modules that export
    [InitAsi] to its address; paths that do not load fail with the code
    126; [thread] is what [CreateThread] answers, [status] what the wait
    on it answers. *)
Definition make_world (entries : list WIN32_FIND_DATA) (modules : list (string * Z))
    (exports : list (Z * Z)) (thread status : Z) : World :=
  {| GetModuleHandle := 0x400000;
     GetModuleFileName := fun h => if h =? 0x400000 then "C:\S4\S4_Main.exe" else "";
     FindFiles := fun pattern =>
       if String.eqb pattern "C:\S4\plugins\*.asi" then entries else [];
     LoadLibrary := fun path => lookup_path path modules;
     GetProcAddress := fun h name =>
       if String.eqb name "InitAsi" then lookup_module h exports else 0;
     GetLastError := fun call =>
       match call with
       | ApiLoadLibrary _ => 126
       | ApiWaitForSingleObject _ => 6
       | _ => 0
       end;
     WaitForSingleObject := fun h ms => if h =? thread then status else 0xFFFFFFFF;
     CallPatch_patch := fun address destination => address =? 0x45C489;
     GetModuleHandleExW := fun flags address =>
       if address =? 0x10001000 then Some 0x10000000 else None;
     CreateThread := fun start parameter => thread;
     addr_AsiLoad := 0x10001000;
     addr_WaitForPlugins := 0x10002000 |}.

Definition loader_module : Z := 0x10000000.

(** [a.asi] and [B.asi], both with an entry point. *)
Definition mixed_case_world : World :=
  make_world [file "a.asi"; file "B.asi"]
    [("C:\S4\plugins\a.asi", 0x20000000); ("C:\S4\plugins\B.asi", 0x30000000)]
    [(0x20000000, 0x20001000); (0x30000000, 0x30001000)]
    0x1A4 WAIT_OBJECT_0.

(** [broken.asi] does not load, [silent.asi] has no entry point; the
    enumeration also yields a directory and [foo.asi.txt]. *)
Definition broken_plugin_world : World :=
  make_world
    [file "zeta.asi"; file "broken.asi"; directory "old.asi"; file "foo.asi.txt";
     file "alpha.asi"; file "silent.asi"]
    [("C:\S4\plugins\alpha.asi", 0x20000000); ("C:\S4\plugins\silent.asi", 0x30000000);
     ("C:\S4\plugins\zeta.asi", 0x40000000);
     ("C:\S4\plugins\foo.asi.txt", 0x50000000)]
    [(0x20000000, 0x20001000); (0x40000000, 0x40001000); (0x50000000, 0x50001000)]
    0x1A4 WAIT_OBJECT_0.

(** The same plugins, but no worker thread can be created. *)
Definition no_thread_world : World :=
  make_world [file "b.asi"; file "a.asi"]
    [("C:\S4\plugins\a.asi", 0x20000000); ("C:\S4\plugins\b.asi", 0x30000000)]
    [(0x20000000, 0x20001000); (0x30000000, 0x30001000)]
    0 WAIT_OBJECT_0.

(** The wait on the worker fails. *)
Definition wait_failed_world : World :=
  make_world [file "b.asi"; file "a.asi"]
    [("C:\S4\plugins\a.asi", 0x20000000); ("C:\S4\plugins\b.asi", 0x30000000)]
    [(0x20000000, 0x20001000); (0x30000000, 0x30001000)]
    0x1A4 0xFFFFFFFF.

(** No plugins directory. *)
Definition no_plugins_world : World :=
  make_world [] [] [] 0x1A4 WAIT_OBJECT_0.

(** A host whose module handle, or whose file name, cannot be had. *)
Definition no_module_world : World :=
  {| GetModuleHandle := 0;
     GetModuleFileName := fun _ => "";
     FindFiles := FindFiles mixed_case_world;
     LoadLibrary := LoadLibrary mixed_case_world;
     GetProcAddress := GetProcAddress mixed_case_world;
     GetLastError := fun _ => 6;
     WaitForSingleObject := WaitForSingleObject mixed_case_world;
     CallPatch_patch := fun _ _ => false;
     GetModuleHandleExW := GetModuleHandleExW mixed_case_world;
     CreateThread := CreateThread mixed_case_world;
     addr_AsiLoad := 0x10001000;
     addr_WaitForPlugins := 0x10002000 |}.

(** ** Vocabulary of the further properties *)

(** The handles waited on in a trace, in the order of the waits. *)
Fixpoint waits (t : list Event) : list Z :=
  match t with
  | [] => []
  | EvWaitForSingleObject h _ :: t' => h :: waits t'
  | _ :: t' => waits t'
  end.

(** The start addresses of the threads created in a trace. *)
Fixpoint starts (t : list Event) : list Z :=
  match t with
  | [] => []
  | EvCreateThread start _ :: t' => start :: starts t'
  | _ :: t' => starts t'
  end.

(** The modules handed to [FreeLibrary] in a trace. *)
Fixpoint frees (t : list Event) : list Z :=
  match t with
  | [] => []
  | EvFreeLibrary h :: t' => h :: frees t'
  | _ :: t' => frees t'
  end.

(** A string without backslash. *)
Fixpoint backslash_free (s : string) : bool :=
  match s with
  | EmptyString => true
  | String c rest => negb (Ascii.eqb c "\") && backslash_free rest
  end.

(** The plugin maps, and what [GetProcAddress] answers for its [InitAsi]. *)
Definition maps (w : World) (plugindir plugin : string) : bool :=
  negb (LoadLibrary w (plugindir ++ plugin) =? 0).

Definition InitAsi_of (w : World) (plugindir plugin : string) : Z :=
  GetProcAddress w (LoadLibrary w (plugindir ++ plugin)) "InitAsi".

(** The plugin maps and exports [InitAsi]. *)
Definition exports_InitAsi (w : World) (plugindir plugin : string) : bool :=
  maps w plugindir plugin && negb (InitAsi_of w plugindir plugin =? 0).

(** The world [w] with a patch that answers [ok], and with a self-lookup
    that answers [p]. *)
Definition with_patch (ok : bool) (w : World) : World :=
  {| GetModuleHandle := GetModuleHandle w;
     GetModuleFileName := GetModuleFileName w;
     FindFiles := FindFiles w;
     LoadLibrary := LoadLibrary w;
     GetProcAddress := GetProcAddress w;
     GetLastError := GetLastError w;
     WaitForSingleObject := WaitForSingleObject w;
     CallPatch_patch := fun _ _ => ok;
     GetModuleHandleExW := GetModuleHandleExW w;
     CreateThread := CreateThread w;
     addr_AsiLoad := addr_AsiLoad w;
     addr_WaitForPlugins := addr_WaitForPlugins w |}.

Definition with_pin (p : option Z) (w : World) : World :=
  {| GetModuleHandle := GetModuleHandle w;
     GetModuleFileName := GetModuleFileName w;
     FindFiles := FindFiles w;
     LoadLibrary := LoadLibrary w;
     GetProcAddress := GetProcAddress w;
     GetLastError := GetLastError w;
     WaitForSingleObject := WaitForSingleObject w;
     CallPatch_patch := CallPatch_patch w;
     GetModuleHandleExW := fun _ _ => p;
     CreateThread := CreateThread w;
     addr_AsiLoad := addr_AsiLoad w;
     addr_WaitForPlugins := addr_WaitForPlugins w |}.

(** [n] times the character [c]. *)
Fixpoint replicate (n : nat) (c : ascii) : string :=
  match n with
  | O => EmptyString
  | S k => String c (replicate k c)
  end.

(** A name of 255 characters, the longest a file name can be. *)
Definition long_name : string := replicate 251 "m" ++ ".asi".

(** A host in a directory of twelve characters, which leaves room for 254
    characters and the terminator behind [plugins\]; the plugins
    directory holds [a.asi], the long name and [z.asi], which all map. *)
Definition deep_host_world : World :=
  {| GetModuleHandle := 0x400000;
     GetModuleFileName := fun _ => "C:\Games\S4\S4_Main.exe";
     FindFiles := fun _ => [file "z.asi"; file long_name; file "a.asi"];
     LoadLibrary := fun path =>
       lookup_path path
         [("C:\Games\S4\plugins\a.asi", 0x20000000);
          ("C:\Games\S4\plugins\z.asi", 0x30000000);
          ("C:\Games\S4\plugins\" ++ long_name, 0x40000000)];
     GetProcAddress := fun h name =>
       lookup_module h
         [(0x20000000, 0x20001000); (0x30000000, 0x30001000); (0x40000000, 0x40001000)];
     GetLastError := fun _ => 0;
     WaitForSingleObject := fun _ _ => WAIT_OBJECT_0;
     CallPatch_patch := fun _ _ => true;
     GetModuleHandleExW := fun _ _ => Some 0x10000000;
     CreateThread := fun _ _ => 0x1A4;
     addr_AsiLoad := 0x10001000;
     addr_WaitForPlugins := 0x10002000 |}.

(** The same host and directory, but [a.asi] does not map and no worker
    thread can be created; the long name and [z.asi] would map. *)
Definition unmapped_then_overlong_world : World :=
  {| GetModuleHandle := 0x400000;
     GetModuleFileName := fun _ => "C:\Games\S4\S4_Main.exe";
     FindFiles := fun _ => [file "z.asi"; file long_name; file "a.asi"];
     LoadLibrary := fun path =>
       lookup_path path
         [("C:\Games\S4\plugins\z.asi", 0x30000000);
          ("C:\Games\S4\plugins\" ++ long_name, 0x40000000)];
     GetProcAddress := fun h name =>
       lookup_module h [(0x30000000, 0x30001000); (0x40000000, 0x40001000)];
     GetLastError := fun _ => 126;
     WaitForSingleObject := fun _ _ => WAIT_OBJECT_0;
     CallPatch_patch := fun _ _ => true;
     GetModuleHandleExW := fun _ _ => Some 0x10000000;
     CreateThread := fun _ _ => 0;
     addr_AsiLoad := 0x10001000;
     addr_WaitForPlugins := 0x10002000 |}.

(** * Properties *)

(** ** The order of the set *)

Lemma ascii_compare_refl (a : ascii) : Ascii.compare a a = Eq.
Proof. unfold Ascii.compare. apply N.compare_refl. Qed.

Lemma string_compare_refl (s : string) : String.compare s s = Eq.
Proof.
  induction s as [|c s IH]; simpl; [reflexivity|].
  now rewrite ascii_compare_refl.
Qed.

Lemma ascii_compare_trans (a b c : ascii) :
  Ascii.compare a b = Lt -> Ascii.compare b c = Lt -> Ascii.compare a c = Lt.
Proof.
  unfold Ascii.compare. rewrite !N.compare_lt_iff. lia.
Qed.

Lemma wstring_less_trans (a b c : string) :
  wstring_less a b -> wstring_less b c -> wstring_less a c.
Proof.
  unfold wstring_less. revert b c.
  induction a as [|x a IH]; intros [|y b] [|z c]; simpl; try congruence.
  destruct (Ascii.compare x y) eqn:Exy; try discriminate;
    destruct (Ascii.compare y z) eqn:Eyz; try discriminate; intros Hab Hbc.
  - apply Ascii.compare_eq_iff in Exy, Eyz. subst.
    rewrite ascii_compare_refl. eauto.
  - apply Ascii.compare_eq_iff in Exy. subst. now rewrite Eyz.
  - apply Ascii.compare_eq_iff in Eyz. subst. now rewrite Exy.
  - now rewrite (ascii_compare_trans _ _ _ Exy Eyz).
Qed.

Lemma wstring_less_irrefl (a : string) : ~ wstring_less a a.
Proof. unfold wstring_less. now rewrite string_compare_refl. Qed.

Lemma compare_Gt_less (a b : string) : String.compare a b = Gt -> wstring_less b a.
Proof.
  unfold wstring_less. intros H. rewrite String.compare_antisym, H. reflexivity.
Qed.

(** Inserting a key keeps exactly the old keys and the new one. *)
Lemma emplace_In (x y : string) (s : list string) :
  In y (emplace x s) <-> y = x \/ In y s.
Proof.
  induction s as [|z s IH]; simpl.
  - intuition.
  - destruct (String.compare x z) eqn:E; simpl.
    + apply String.compare_eq_iff in E. subst. intuition.
    + intuition.
    + rewrite IH. intuition.
Qed.

(** Inserting a key keeps the keys strictly ascending. *)
Lemma emplace_sorted (x : string) (s : list string) :
  StronglySorted wstring_less s -> StronglySorted wstring_less (emplace x s).
Proof.
  induction 1 as [|z s Hs IH Hz]; simpl.
  - repeat constructor.
  - destruct (String.compare x z) eqn:E.
    + now constructor.
    + constructor; [now constructor|].
      constructor; [exact E|].
      eapply Forall_impl; [|exact Hz].
      intros b Hb. eapply wstring_less_trans; eauto.
    + constructor; [exact IH|].
      apply Forall_forall. intros b Hb.
      apply emplace_In in Hb. destruct Hb as [->|Hb].
      * now apply compare_Gt_less.
      * rewrite Forall_forall in Hz. auto.
Qed.

(** Strictly ascending keys are pairwise different. *)
Lemma sorted_NoDup (s : list string) : StronglySorted wstring_less s -> NoDup s.
Proof.
  induction 1 as [|z s Hs IH Hz]; constructor; [|exact IH].
  intros Hin. rewrite Forall_forall in Hz.
  exact (wstring_less_irrefl z (Hz z Hin)).
Qed.

(** Two strictly ascending lists with the same keys are the same list:
    the iteration order of the set is fixed by its keys. *)
Lemma sorted_unique (s t : list string) :
  StronglySorted wstring_less s -> StronglySorted wstring_less t ->
  (forall x, In x s <-> In x t) -> s = t.
Proof.
  intros Hs. revert t.
  induction Hs as [|a s Hs IH Ha]; intros t Ht Heq.
  - destruct t as [|b t]; [reflexivity|].
    destruct (proj2 (Heq b) (or_introl eq_refl)).
  - destruct Ht as [|b t Ht Hb].
    + destruct (proj1 (Heq a) (or_introl eq_refl)).
    + rewrite Forall_forall in Ha, Hb.
      assert (a = b) as ->.
      { destruct (proj1 (Heq a) (or_introl eq_refl)) as [E|Hat]; [now symmetry|].
        destruct (proj2 (Heq b) (or_introl eq_refl)) as [E|Hbs]; [exact E|].
        exfalso. apply (wstring_less_irrefl a).
        eapply wstring_less_trans; [apply Ha, Hbs | apply Hb, Hat]. }
      f_equal. apply IH; [exact Ht|].
      intros x. split; intros Hx.
      * destruct (proj1 (Heq x) (or_intror Hx)) as [E|Hx']; [|exact Hx'].
        subst. exfalso. exact (wstring_less_irrefl _ (Ha _ Hx)).
      * destruct (proj2 (Heq x) (or_intror Hx)) as [E|Hx']; [|exact Hx'].
        subst. exfalso. exact (wstring_less_irrefl _ (Hb _ Hx)).
Qed.

(** ** The filter *)

Lemma PathMatchSpec_star (mask name : string) :
  PathMatchSpec_from (String "*" mask) name
  = PathMatchSpec_from mask name
    || match name with
       | EmptyString => false
       | String _ name' => PathMatchSpec_from (String "*" mask) name'
       end.
Proof. destruct name; reflexivity. Qed.

Lemma PathMatchSpec_char (m : ascii) (mask name : string) :
  Ascii.eqb m "*" = false -> Ascii.eqb m "?" = false ->
  PathMatchSpec_from (String m mask) name
  = match name with
    | EmptyString => false
    | String c name' =>
        Ascii.eqb (toupper m) (toupper c) && PathMatchSpec_from mask name'
    end.
Proof.
  intros Hstar Hany. destruct name; cbn [PathMatchSpec_from]; rewrite Hstar;
    [reflexivity|].
  now rewrite Hany.
Qed.

(** Without wildcard the mask [.asi] matches the four-character names
    that are [.asi] up to the case of the letters. *)
Lemma PathMatchSpec_literal (name : string) :
  PathMatchSpec_from ".asi" name = true <-> string_map toupper name = ".ASI".
Proof.
  rewrite PathMatchSpec_char by reflexivity.
  destruct name as [|c1 name]; [split; discriminate|].
  rewrite PathMatchSpec_char by reflexivity.
  destruct name as [|c2 name]; [rewrite andb_false_r; split; discriminate|].
  rewrite PathMatchSpec_char by reflexivity.
  destruct name as [|c3 name]; [rewrite !andb_false_r; split; discriminate|].
  rewrite PathMatchSpec_char by reflexivity.
  destruct name as [|c4 name]; [rewrite !andb_false_r; split; discriminate|].
  rewrite !andb_true_iff, !Ascii.eqb_eq.
  change (toupper ".") with "."%char. change (toupper "a") with "A"%char.
  change (toupper "s") with "S"%char. change (toupper "i") with "I"%char.
  cbn [string_map PathMatchSpec_from].
  destruct name as [|c5 name].
  - split.
    + intros (<- & <- & <- & <- & _). reflexivity.
    + intros H. inversion H. auto.
  - split.
    + intros (_ & _ & _ & _ & H). discriminate.
    + intros H. inversion H.
Qed.

Lemma ends_with_asi_cons (c : ascii) (name : string) :
  ends_with_asi (String c name)
  <-> string_map toupper (String c name) = ".ASI" \/ ends_with_asi name.
Proof.
  unfold ends_with_asi. split.
  - intros ([|d stem] & ext & E & H); simpl in E.
    + left. now subst.
    + right. inversion E. eauto.
  - intros [H|(stem & ext & -> & H)].
    + exists "", (String c name). auto.
    + exists (String c stem), ext. auto.
Qed.

(** [PathMatchSpec] with the mask [*.asi] accepts exactly the names that
    end with [.asi]. *)
Lemma PathMatchSpec_asi (name : string) :
  PathMatchSpec name PLUGINFILTER = true <-> ends_with_asi name.
Proof.
  unfold PathMatchSpec, PLUGINFILTER.
  induction name as [|c name IH]; rewrite PathMatchSpec_star.
  - simpl. split; [discriminate|].
    intros ([|? ?] & ext & E & H); simpl in E; [subst; discriminate | discriminate].
  - rewrite orb_true_iff, PathMatchSpec_literal, IH, ends_with_asi_cons. reflexivity.
Qed.

Lemma ends_with_asi_app (stem name : string) :
  ends_with_asi name -> ends_with_asi (stem ++ name).
Proof.
  induction stem as [|c stem IH]; simpl; [auto|].
  intros H. apply ends_with_asi_cons. auto.
Qed.

Lemma string_map_length (f : ascii -> ascii) (s : string) :
  String.length (string_map f s) = String.length s.
Proof. induction s; simpl; congruence. Qed.

Lemma append_length (a b : string) :
  String.length (a ++ b) = (String.length a + String.length b)%nat.
Proof. induction a; simpl; congruence. Qed.

Lemma append_assoc (a b c : string) : (a ++ b) ++ c = a ++ (b ++ c).
Proof. induction a; simpl; congruence. Qed.

(** Two ways to cut a string into a stem and an ending of the same length
    give the same ending. *)
Lemma append_inv_tail (a b c d : string) :
  a ++ b = c ++ d -> String.length b = String.length d -> b = d.
Proof.
  revert c. induction a as [|x a IH]; intros [|y c]; simpl; intros E L.
  - exact E.
  - exfalso. subst b. simpl in L. rewrite append_length in L. lia.
  - exfalso. subst d. simpl in L. rewrite append_length in L. lia.
  - inversion E. eauto.
Qed.

(** A name that ends with [.asi.txt] does not end with [.asi]. *)
Lemma asi_txt_rejected (stem : string) : ~ ends_with_asi (stem ++ "foo.asi.txt").
Proof.
  intros (s & ext & E & H).
  change "foo.asi.txt" with ("foo.asi" ++ ".txt") in E.
  rewrite <- append_assoc in E.
  apply append_inv_tail in E.
  - subst ext. discriminate.
  - apply (f_equal String.length) in H. rewrite string_map_length in H.
    rewrite H. reflexivity.
Qed.

(** ** Discovery *)

Lemma collect_accepted (plugins : list string) (ffd : WIN32_FIND_DATA) :
  collect plugins ffd
  = if accepted ffd then emplace (cFileName ffd) plugins else plugins.
Proof.
  unfold collect, accepted.
  destruct (Z.land (dwFileAttributes ffd) FILE_ATTRIBUTE_DIRECTORY =? 0);
    cbn [negb andb]; [|reflexivity].
  now destruct (PathMatchSpec (cFileName ffd) PLUGINFILTER).
Qed.

Lemma fold_collect_In (entries : list WIN32_FIND_DATA) (acc : list string)
    (name : string) :
  In name (fold_left collect entries acc)
  <-> In name acc
      \/ exists ffd, In ffd entries /\ accepted ffd = true /\ cFileName ffd = name.
Proof.
  revert acc. induction entries as [|ffd entries IH]; intros acc; simpl.
  - split; [auto | intros [H|(? & [] & _)]; exact H].
  - rewrite IH, collect_accepted. destruct (accepted ffd) eqn:A.
    + rewrite emplace_In. split.
      * intros [[->|H]|(f & Hf & Af & Ef)]; eauto 8.
      * intros [H|(f & [->|Hf] & Af & Ef)]; eauto 8.
    + split.
      * intros [H|(f & Hf & Af & Ef)]; eauto 8.
      * intros [H|(f & [->|Hf] & Af & Ef)]; [auto | congruence | eauto 8].
Qed.

Lemma fold_collect_sorted (entries : list WIN32_FIND_DATA) (acc : list string) :
  StronglySorted wstring_less acc ->
  StronglySorted wstring_less (fold_left collect entries acc).
Proof.
  revert acc. induction entries as [|ffd entries IH]; intros acc H; simpl; [exact H|].
  apply IH. rewrite collect_accepted.
  destruct (accepted ffd); [now apply emplace_sorted | exact H].
Qed.

(** The set holds the names of the accepted entries and nothing else. *)
Lemma collect_all_In (entries : list WIN32_FIND_DATA) (name : string) :
  In name (collect_all entries)
  <-> exists ffd, In ffd entries /\ accepted ffd = true /\ cFileName ffd = name.
Proof.
  unfold collect_all. rewrite fold_collect_In. simpl. intuition.
Qed.

(** The set is iterated in strictly ascending order of the code units. *)
Lemma collect_all_sorted (entries : list WIN32_FIND_DATA) :
  StronglySorted wstring_less (collect_all entries).
Proof. apply fold_collect_sorted. constructor. Qed.

(** ** Runs of the loops *)

(** Unfolds the plumbing of the computations. *)
Ltac run :=
  cbv [bind get put emit ret fault ExitProcess set_handle push_back
       result final trace].

Lemma recorded_nil (st : State) : recorded [] st = st.
Proof. destruct st. unfold recorded. simpl. now rewrite app_nil_r. Qed.

Lemma joined_null (st : State) : loader_init_thread_handle st = 0 -> joined st = st.
Proof. destruct st. unfold joined, with_handle. simpl. now intros ->. Qed.

(** The loading loop in closed form: it handles the plugins one after the
    other up to the first name that does not fit. *)
Lemma load_plugins_run (w : World) (plugindir : string) (remainingLen : Z)
    (plugins : list string) (st : State) :
  load_plugins w plugindir remainingLen plugins st
  = mkRun (if all_fit remainingLen plugins then Normal tt else Fault)
      (recorded (flat_map (plugin_inits w plugindir) (fitting remainingLen plugins)) st)
      (flat_map (plugin_events w plugindir) (fitting remainingLen plugins)).
Proof.
  revert st. induction plugins as [|plugin rest IH]; intros st.
  - simpl. now rewrite recorded_nil.
  - cbn [load_plugins fitting all_fit forallb].
    destruct (Z.of_nat (String.length plugin) <? remainingLen).
    + cbn [flat_map andb]. unfold plugin_inits at 1, plugin_events at 1.
      destruct (LoadLibrary w (plugindir ++ plugin) =? 0);
        [|destruct (GetProcAddress w (LoadLibrary w (plugindir ++ plugin)) "InitAsi"
                    =? 0)];
        unfold push_back; unfold bind, emit, ret, get, put;
        cbn [result final trace app];
        rewrite IH; cbn [result final trace app]; fold (all_fit remainingLen rest);
        unfold recorded;
        cbn [initialise_vectors loader_init_thread_handle loader_init_thread_running];
        rewrite <- ?app_assoc; reflexivity.
    + cbn [flat_map andb]. unfold fault. now rewrite recorded_nil.
Qed.

(** The calling loop in closed form. *)
Lemma call_all_run (inits : list Z) (st : State) :
  call_all inits st = mkRun (Normal tt) st (map EvInitAsi inits).
Proof.
  induction inits as [|init rest IH]; [reflexivity|].
  cbn [call_all map]. unfold bind, emit. cbn [result final trace].
  rewrite IH. reflexivity.
Qed.

Lemma calls_app (t1 t2 : list Event) : calls (t1 ++ t2) = (calls t1 ++ calls t2)%list.
Proof.
  induction t1 as [|e t1 IH]; [reflexivity|].
  destruct e; simpl; congruence.
Qed.

Lemma dialogs_app (t1 t2 : list Event) : dialogs (t1 ++ t2) = (dialogs t1 ++ dialogs t2)%list.
Proof.
  induction t1 as [|e t1 IH]; [reflexivity|].
  destruct e; simpl; congruence.
Qed.

Lemma loads_app (t1 t2 : list Event) : loads (t1 ++ t2) = (loads t1 ++ loads t2)%list.
Proof.
  induction t1 as [|e t1 IH]; [reflexivity|].
  destruct e; simpl; congruence.
Qed.

Lemma calls_map_EvInitAsi (inits : list Z) : calls (map EvInitAsi inits) = inits.
Proof. induction inits; simpl; congruence. Qed.

Lemma calls_join_events (w : World) (st : State) : calls (join_events w st) = [].
Proof.
  unfold join_events.
  destruct (loader_init_thread_handle st =? 0); [reflexivity|]. simpl.
  now destruct (WaitForSingleObject w (loader_init_thread_handle st) INFINITE
                =? WAIT_OBJECT_0).
Qed.

(** The trigger in closed form: it deals with the worker, clears the
    handle, calls every recorded entry point in the order of the list and
    returns 1. *)
Lemma WaitForPlugins_run (w : World) (st : State) :
  WaitForPlugins w st
  = mkRun (Normal 1) (joined st)
      (join_events w st ++ map EvInitAsi (initialise_vectors st)).
Proof.
  unfold WaitForPlugins, join_events. run.
  destruct (loader_init_thread_handle st =? 0) eqn:H; cbn [negb]; run.
  - apply Z.eqb_eq in H.
    rewrite call_all_run. run.
    rewrite joined_null by exact H. now rewrite app_nil_r.
  - destruct (WaitForSingleObject w (loader_init_thread_handle st) INFINITE
              =? WAIT_OBJECT_0); cbn [negb]; run;
      rewrite call_all_run; run; cbn [app]; rewrite app_nil_r; reflexivity.
Qed.

(** ** Runs of [AsiLoad] *)

Lemma substring_length (s : string) (n m : nat) :
  (String.length (String.substring n m s) <= m)%nat.
Proof.
  revert n m. induction s as [|c s IH]; intros [|n] [|m]; simpl; try lia.
  - specialize (IH 0%nat m). lia.
  - apply IH.
  - apply IH.
Qed.

Lemma directory_end_nonempty (s : string) (n : nat) :
  directory_end s = Some n -> s <> "".
Proof. destruct s; simpl; congruence. Qed.

Lemma exe_filename_len (w : World) (n : nat) :
  directory_end (exe_filename w) = Some n ->
  (DWORD (Z.of_nat (String.length (exe_filename w))) <=? 0) = false.
Proof.
  intros H. apply directory_end_nonempty in H.
  assert (String.length (exe_filename w) <= 260)%nat as L
    by apply (substring_length _ 0 260).
  destruct (exe_filename w) as [|c s]; [congruence|].
  apply Z.leb_gt. unfold DWORD. rewrite Z.mod_small; simpl String.length in *; lia.
Qed.

Lemma ERROR_BOX_run (A : Type) (w : World) (err : string) (call : ApiCall) (st : State) :
  @ERROR_BOX A w err call st
  = mkRun (Exited 0) st [fatal_dialog w err call; EvExitProcess 0].
Proof. reflexivity. Qed.

(** No module handle for the host: the dialog, then the end of the process. *)
Lemma AsiLoad_no_module (w : World) (hModule : Z) (st : State) :
  GetModuleHandle w = 0 ->
  AsiLoad w hModule st
  = mkRun (Exited 0) st
      [fatal_dialog w "Cannot get module handle of your exe." ApiGetModuleHandle;
       EvExitProcess 0].
Proof.
  intros H. unfold AsiLoad. rewrite H. cbn [Z.eqb]. apply ERROR_BOX_run.
Qed.

(** No file name for the host: the dialog, then the end of the process. *)
Lemma AsiLoad_no_filename (w : World) (hModule : Z) (st : State) :
  GetModuleHandle w <> 0 ->
  GetModuleFileName w (GetModuleHandle w) = "" ->
  AsiLoad w hModule st
  = mkRun (Exited 0) st
      [fatal_dialog w "Cannot get file name of your exe." ApiGetModuleFileName;
       EvExitProcess 0].
Proof.
  intros Hm Hf. unfold AsiLoad, exe_filename.
  apply Z.eqb_neq in Hm. rewrite Hm, Hf. apply ERROR_BOX_run.
Qed.

(** The host identified: one search, then the loading loop over the set. *)
Lemma AsiLoad_run (w : World) (n : nat) (hModule : Z) (st : State) :
  host_identified w n ->
  AsiLoad w hModule st
  = mkRun (if all_fit (room n) (discovered w n) then Normal 0 else Fault)
      (recorded (flat_map (plugin_inits w (plugin_directory w n))
                   (fitting (room n) (discovered w n))) st)
      (EvFindFirstFile (search_pattern w n)
       :: flat_map (plugin_events w (plugin_directory w n))
            (fitting (room n) (discovered w n))).
Proof.
  intros [Hm Hd]. unfold AsiLoad.
  apply Z.eqb_neq in Hm. rewrite Hm, (exe_filename_len w n Hd), Hd.
  fold (plugin_directory w n). fold (search_pattern w n). fold (room n).
  unfold discovered.
  destruct (FindFiles w (search_pattern w n)) as [|ffd entries] eqn:E.
  - run. simpl. now rewrite recorded_nil.
  - run. rewrite load_plugins_run. run.
    destruct (all_fit (room n) (collect_all (ffd :: entries)));
      cbn [app]; rewrite ?app_nil_r; reflexivity.
Qed.

(** ** Runs of [DllMain] *)

(** Any notification other than process attach does nothing. *)
Lemma DllMain_other (w : World) (hModule reason lpReserved : Z) (st : State) :
  reason <> DLL_PROCESS_ATTACH ->
  DllMain w hModule reason lpReserved st = mkRun (Normal TRUE) st [].
Proof.
  intros H. unfold DllMain. apply Z.eqb_neq in H. rewrite H. reflexivity.
Qed.

(** Attach with the worker started. *)
Lemma DllMain_spawned (w : World) (hModule lpReserved m : Z) (st : State) :
  pin w = Some m ->
  CreateThread w (addr_AsiLoad w) hModule <> 0 ->
  DllMain w hModule DLL_PROCESS_ATTACH lpReserved st
  = mkRun (Normal TRUE)
      (with_handle (CreateThread w (addr_AsiLoad w) hModule) st)
      (attach_events w ++ [EvCreateThread (addr_AsiLoad w) hModule]).
Proof.
  intros Hp Hc. unfold DllMain, attach_events, patch_dialog, patched, patch_address.
  unfold pin in Hp. cbn [Z.eqb DLL_PROCESS_ATTACH Pos.eqb]. rewrite Hp.
  apply Z.eqb_neq in Hc.
  destruct (CallPatch_patch w _ _); cbn [negb]; run;
    cbn [loader_init_thread_handle]; rewrite Hc; reflexivity.
Qed.

(** Attach with the module pinned and no worker: [AsiLoad] runs in
    [DllMain], then the pin is released. *)
Lemma DllMain_degraded (w : World) (hModule lpReserved m : Z) (st : State) :
  pin w = Some m ->
  CreateThread w (addr_AsiLoad w) hModule = 0 ->
  DllMain w hModule DLL_PROCESS_ATTACH lpReserved st
  = let r := AsiLoad w 0 (joined st) in
    mkRun (then_return (result r) TRUE) (final r)
      (attach_events w ++ [EvCreateThread (addr_AsiLoad w) hModule]
       ++ trace r ++ (if returned (result r) then [EvFreeLibrary m] else [])).
Proof.
  intros Hp Hc. unfold DllMain, attach_events, patch_dialog, patched, patch_address.
  unfold pin in Hp. cbn [Z.eqb DLL_PROCESS_ATTACH Pos.eqb]. rewrite Hp.
  destruct (CallPatch_patch w _ _); cbn [negb]; run;
    cbn [loader_init_thread_handle]; rewrite Hc; cbn [Z.eqb];
    fold (with_handle 0 st); fold (joined st);
    destruct (AsiLoad w 0 (joined st)) as [[a|c|] st' t]; run;
    cbn [then_return returned app]; rewrite ?app_nil_r; reflexivity.
Qed.

(** Attach without the pin: [AsiLoad] runs in [DllMain]. *)
Lemma DllMain_unpinned (w : World) (hModule lpReserved : Z) (st : State) :
  pin w = None ->
  DllMain w hModule DLL_PROCESS_ATTACH lpReserved st
  = let r := AsiLoad w 0 st in
    mkRun (then_return (result r) TRUE) (final r) (attach_events w ++ trace r).
Proof.
  intros Hp. unfold DllMain, attach_events, patch_dialog, patched, patch_address.
  unfold pin in Hp. cbn [Z.eqb DLL_PROCESS_ATTACH Pos.eqb]. rewrite Hp.
  destruct (CallPatch_patch w _ _); cbn [negb]; run;
    destruct (AsiLoad w 0 st) as [[a|c|] st' t]; run;
    cbn [then_return app]; rewrite ?app_nil_r; reflexivity.
Qed.

(** ** Runs of the process *)

Lemma names_fit_all_fit (n : nat) (plugins : list string) :
  names_fit n plugins -> all_fit (room n) plugins = true.
Proof.
  unfold names_fit, all_fit. rewrite Forall_forall, forallb_forall.
  intros H plugin Hin. apply Z.ltb_lt. auto.
Qed.

Lemma names_fit_fitting (n : nat) (plugins : list string) :
  names_fit n plugins -> fitting (room n) plugins = plugins.
Proof.
  unfold names_fit. induction 1 as [|plugin rest Hp _ IH]; [reflexivity|].
  simpl. apply Z.ltb_lt in Hp. rewrite Hp. now f_equal.
Qed.

(** [AsiLoad] for a host that is not identified: nothing is searched or
    loaded, and the function does not return. *)
Lemma AsiLoad_unidentified (w : World) (hModule : Z) (st : State) :
  (forall n, ~ host_identified w n) ->
  exists r t, AsiLoad w hModule st = mkRun r st t
              /\ returned r = false /\ searches t = [] /\ loads t = [] /\ calls t = [].
Proof.
  intros H. unfold AsiLoad.
  destruct (GetModuleHandle w =? 0) eqn:Hm.
  - rewrite ERROR_BOX_run. do 2 eexists. repeat split.
  - destruct (DWORD (Z.of_nat (String.length (exe_filename w))) <=? 0).
    + rewrite ERROR_BOX_run. do 2 eexists. repeat split.
    + destruct (directory_end (exe_filename w)) as [n|] eqn:Hd.
      * exfalso. apply (H n). split; [now apply Z.eqb_neq | exact Hd].
      * do 2 eexists. repeat split.
Qed.

Lemma host_identified_dec (w : World) :
  (exists n, host_identified w n) \/ (forall n, ~ host_identified w n).
Proof.
  unfold host_identified.
  destruct (Z.eq_dec (GetModuleHandle w) 0) as [E|E].
  - right. intros n [H _]. contradiction.
  - destruct (directory_end (exe_filename w)) as [n|].
    + left. exists n. auto.
    + right. intros n [_ H]. discriminate.
Qed.

(** A computation that returns, followed by another. *)
Lemma bind_Normal (A B : Type) (m : M A) (k : A -> M B) (st st' : State) (a : A)
    (t : list Event) :
  m st = mkRun (Normal a) st' t ->
  bind m k st = mkRun (result (k a st')) (final (k a st')) (t ++ trace (k a st')).
Proof. intros H. unfold bind. rewrite H. reflexivity. Qed.

(** The worker when no thread was created. *)
Lemma worker_idle (w : World) (hModule : Z) (st : State) :
  loader_init_thread_handle st = 0 -> worker w hModule st = mkRun (Normal tt) st [].
Proof. intros H. unfold worker. run. rewrite H. reflexivity. Qed.

(** [reached] runs of the trigger. *)
Lemma fire_run (w : World) (reached : nat) (st : State) :
  fire w reached st
  = mkRun (Normal tt) (match reached with O => st | S _ => joined st end)
      (fire_events w reached st).
Proof.
  revert st. induction reached as [|k IH]; intros st; [reflexivity|].
  cbn [fire fire_events]. unfold bind. rewrite WaitForPlugins_run.
  cbn [result final trace]. rewrite IH. cbn [result final trace].
  now destruct k.
Qed.

Lemma calls_plugin_events (w : World) (plugindir : string) (plugins : list string) :
  calls (flat_map (plugin_events w plugindir) plugins) = [].
Proof.
  induction plugins as [|p rest IH]; [reflexivity|].
  cbn [flat_map]. rewrite calls_app, IH. unfold plugin_events.
  now destruct (LoadLibrary w (plugindir ++ p) =? 0).
Qed.

Lemma loads_plugin_events (w : World) (plugindir : string) (plugins : list string) :
  loads (flat_map (plugin_events w plugindir) plugins)
  = map (fun plugin => plugindir ++ plugin) plugins.
Proof.
  induction plugins as [|p rest IH]; [reflexivity|].
  cbn [flat_map map]. rewrite loads_app, IH. unfold plugin_events.
  now destruct (LoadLibrary w (plugindir ++ p) =? 0).
Qed.

Lemma calls_attach_events (w : World) : calls (attach_events w) = [].
Proof. unfold attach_events, patch_dialog. now destruct (patched w). Qed.

Lemma calls_startup_events (w : World) (n : nat) (hModule : Z) :
  calls (startup_events w n hModule) = [].
Proof.
  unfold startup_events, load_events. rewrite calls_app, calls_attach_events.
  destruct (pin w); cbn [app calls]; rewrite ?calls_app, calls_plugin_events;
    [|reflexivity].
  now destruct (CreateThread w (addr_AsiLoad w) hModule =? 0).
Qed.

(** The calls of [reached] runs of the trigger: the whole list each time. *)
Lemma calls_fire_events (w : World) (reached : nat) (st : State) :
  calls (fire_events w reached st)
  = List.concat (repeat (initialise_vectors st) reached).
Proof.
  revert st. induction reached as [|k IH]; intros st; [reflexivity|].
  cbn [fire_events repeat List.concat].
  rewrite !calls_app, calls_join_events, calls_map_EvInitAsi, IH. reflexivity.
Qed.

(** The runs of a world whose host is identified, with a directory part
    of [n] characters, and whose plugin names all fit the buffer. *)
Section IdentifiedHost.

Variables (w : World) (n : nat).
Hypothesis identified : host_identified w n.
Hypothesis fit : names_fit n (discovered w n).

(** [AsiLoad] searches once, handles every plugin of the set and returns. *)
Lemma AsiLoad_fit (hModule : Z) (st : State) :
  AsiLoad w hModule st
  = mkRun (Normal 0) (recorded (loaded_inits w n) st) (load_events w n).
Proof.
  rewrite (AsiLoad_run w n) by exact identified.
  rewrite names_fit_all_fit, names_fit_fitting by exact fit. reflexivity.
Qed.

(** The worker when a thread was created. *)
Lemma worker_run (hModule : Z) (st : State) :
  loader_init_thread_handle st <> 0 ->
  worker w hModule st
  = mkRun (Normal tt) (recorded (loaded_inits w n) st) (load_events w n).
Proof.
  intros H. unfold worker.
  erewrite bind_Normal by reflexivity. apply Z.eqb_neq in H. rewrite H.
  erewrite bind_Normal by apply AsiLoad_fit.
  cbn [ret result final trace app]. now rewrite app_nil_r.
Qed.

(** [DllMain] and the worker: whichever thread runs it, [AsiLoad] has run
    once. *)
Lemma startup_run (hModule : Z) :
  startup w hModule initial_state
  = mkRun (Normal tt) (loaded_state w n hModule) (startup_events w n hModule).
Proof.
  unfold startup, loaded_state, startup_events, spawned.
  destruct (pin w) as [m|] eqn:Hp.
  - destruct (Z.eq_dec (CreateThread w (addr_AsiLoad w) hModule) 0) as [Hc|Hc].
    + erewrite bind_Normal.
      2:{ rewrite (DllMain_degraded w hModule 0 m) by assumption.
          rewrite AsiLoad_fit.
          cbn [then_return returned result final trace]. reflexivity. }
      rewrite worker_idle by reflexivity. cbn [result final trace].
      rewrite Hc. cbn [Z.eqb]. unfold joined.
      rewrite app_nil_r. reflexivity.
    + erewrite bind_Normal by (apply (DllMain_spawned w hModule 0 m); assumption).
      rewrite worker_run by exact Hc. cbn [result final trace].
      apply Z.eqb_neq in Hc. rewrite Hc.
      rewrite app_nil_r, <- app_assoc. reflexivity.
  - erewrite bind_Normal.
    2:{ rewrite DllMain_unpinned by assumption.
        rewrite AsiLoad_fit.
        cbn [then_return result final trace]. reflexivity. }
    rewrite worker_idle by reflexivity. cbn [result final trace].
    now rewrite app_nil_r.
Qed.

(** The whole process. *)
Lemma lifetime_run (hModule : Z) (reached : nat) :
  lifetime w hModule reached
  = mkRun (Normal tt)
      (match reached with
       | O => loaded_state w n hModule
       | S _ => joined (loaded_state w n hModule)
       end)
      (startup_events w n hModule ++ fire_events w reached (loaded_state w n hModule)).
Proof.
  unfold lifetime, bind. rewrite startup_run.
  cbn [result final trace]. rewrite fire_run. reflexivity.
Qed.

(** The calls of the whole process: the recorded entry points, once for
    every time the host runs the patched call site. *)
Lemma calls_lifetime (hModule : Z) (reached : nat) :
  calls (trace (lifetime w hModule reached))
  = List.concat (repeat (loaded_inits w n) reached).
Proof.
  rewrite lifetime_run. cbn [trace].
  rewrite calls_app, calls_startup_events, calls_fire_events. reflexivity.
Qed.

End IdentifiedHost.

(** ** What the functions never do *)

Lemma fitting_incl (remainingLen : Z) (plugins : list string) (plugin : string) :
  In plugin (fitting remainingLen plugins) -> In plugin plugins.
Proof.
  induction plugins as [|p rest IH]; simpl; [auto|].
  destruct (Z.of_nat (String.length p) <? remainingLen); simpl; [|contradiction].
  intros [H|H]; auto.
Qed.

(** [AsiLoad] calls no entry point. *)
Lemma calls_AsiLoad (w : World) (hModule : Z) (st : State) :
  calls (trace (AsiLoad w hModule st)) = [].
Proof.
  destruct (host_identified_dec w) as [[n H]|H].
  - rewrite (AsiLoad_run w n) by exact H. cbn [trace calls].
    apply calls_plugin_events.
  - destruct (AsiLoad_unidentified w hModule st H) as (r & t & -> & _ & _ & _ & Hc).
    exact Hc.
Qed.

(** Every path [AsiLoad] hands to [LoadLibrary] is the plugins directory
    followed by a name of the set. *)
Lemma loads_AsiLoad (w : World) (hModule : Z) (st : State) (f : string) :
  In f (loads (trace (AsiLoad w hModule st))) ->
  exists n plugin, host_identified w n /\ In plugin (discovered w n)
                   /\ f = plugin_directory w n ++ plugin.
Proof.
  destruct (host_identified_dec w) as [[n H]|H].
  - rewrite (AsiLoad_run w n) by exact H. cbn [trace loads].
    rewrite loads_plugin_events, in_map_iff. intros (plugin & <- & Hin).
    exists n, plugin. eauto using fitting_incl.
  - destruct (AsiLoad_unidentified w hModule st H) as (r & t & -> & _ & _ & Hl & _).
    cbn [trace]. rewrite Hl. contradiction.
Qed.

(** [DllMain] calls no entry point. *)
Lemma calls_DllMain (w : World) (hModule reason lpReserved : Z) (st : State) :
  calls (trace (DllMain w hModule reason lpReserved st)) = [].
Proof.
  destruct (Z.eq_dec reason DLL_PROCESS_ATTACH) as [->|Hr].
  - destruct (pin w) as [m|] eqn:Hp.
    + destruct (Z.eq_dec (CreateThread w (addr_AsiLoad w) hModule) 0) as [Hc|Hc].
      * rewrite (DllMain_degraded w hModule lpReserved m) by assumption.
        cbn [trace]. rewrite !calls_app, calls_attach_events, calls_AsiLoad.
        now destruct (returned _).
      * rewrite (DllMain_spawned w hModule lpReserved m) by assumption.
        cbn [trace]. now rewrite calls_app, calls_attach_events.
    + rewrite DllMain_unpinned by assumption.
      cbn [trace]. now rewrite calls_app, calls_attach_events, calls_AsiLoad.
  - now rewrite DllMain_other.
Qed.

(** The paths [DllMain] hands to [LoadLibrary] are those of [AsiLoad]. *)
Lemma loads_DllMain (w : World) (hModule reason lpReserved : Z) (st : State)
    (f : string) :
  In f (loads (trace (DllMain w hModule reason lpReserved st))) ->
  exists h st', In f (loads (trace (AsiLoad w h st'))).
Proof.
  assert (loads (attach_events w) = []) as Ha
    by (unfold attach_events, patch_dialog; now destruct (patched w)).
  destruct (Z.eq_dec reason DLL_PROCESS_ATTACH) as [->|Hr].
  - destruct (pin w) as [m|] eqn:Hp.
    + destruct (Z.eq_dec (CreateThread w (addr_AsiLoad w) hModule) 0) as [Hc|Hc].
      * rewrite (DllMain_degraded w hModule lpReserved m) by assumption.
        cbn [trace]. rewrite !loads_app, Ha. cbn [app loads].
        rewrite in_app_iff. intros [H|H]; [eauto|].
        destruct (returned _); destruct H.
      * rewrite (DllMain_spawned w hModule lpReserved m) by assumption.
        cbn [trace]. rewrite loads_app, Ha. intros [].
    + rewrite DllMain_unpinned by assumption.
      cbn [trace]. rewrite loads_app, Ha. eauto.
  - rewrite DllMain_other by exact Hr. intros [].
Qed.

Lemma trace_bind (A B : Type) (m : M A) (k : A -> M B) (st : State) :
  trace (bind m k st)
  = (trace (m st)
     ++ match result (m st) with
        | Normal a => trace (k a (final (m st)))
        | _ => []
        end)%list.
Proof.
  unfold bind. destruct (result (m st)); cbn [trace]; now rewrite ?app_nil_r.
Qed.

Lemma loads_fire_events (w : World) (reached : nat) (st : State) :
  loads (fire_events w reached st) = [].
Proof.
  revert st. induction reached as [|k IH]; intros st; [reflexivity|].
  cbn [fire_events]. rewrite !loads_app, IH, !app_nil_r.
  assert (loads (map EvInitAsi (initialise_vectors st)) = []) as ->
    by (induction (initialise_vectors st); simpl; auto).
  rewrite app_nil_r. unfold join_events.
  destruct (loader_init_thread_handle st =? 0); [reflexivity|]. simpl.
  now destruct (WaitForSingleObject w _ _ =? WAIT_OBJECT_0).
Qed.

(** In the whole process, whatever the world, every path handed to
    [LoadLibrary] is handed to it by [AsiLoad]. *)
Lemma loads_lifetime (w : World) (hModule : Z) (reached : nat) (f : string) :
  In f (loads (trace (lifetime w hModule reached))) ->
  exists h st, In f (loads (trace (AsiLoad w h st))).
Proof.
  unfold lifetime, startup. rewrite !trace_bind, !loads_app, !in_app_iff.
  intros [[H|H]|H].
  - eapply loads_DllMain; eauto.
  - destruct (result (DllMain _ _ _ _ _)); [|destruct H..].
    unfold worker in H. rewrite trace_bind in H. cbn [get result final trace app] in H.
    destruct (loader_init_thread_handle _ =? 0); [destruct H|].
    rewrite trace_bind, loads_app, in_app_iff in H. destruct H as [H|H]; [eauto|].
    destruct (result (AsiLoad _ _ _)); destruct H.
  - destruct (result (bind _ _ _)); [|destruct H..].
    rewrite fire_run in H. cbn [trace] in H. rewrite loads_fire_events in H.
    destruct H.
Qed.

(** * The properties of the specification *)

(** ** Ordering *)

(** The set does not depend on the order of the enumeration: two
    enumerations with the same accepted names give the same sequence. *)
Lemma discovery_order_independent (entries1 entries2 : list WIN32_FIND_DATA) :
  (forall name,
      (exists ffd, In ffd entries1 /\ accepted ffd = true /\ cFileName ffd = name)
      <-> (exists ffd, In ffd entries2 /\ accepted ffd = true /\ cFileName ffd = name)) ->
  collect_all entries1 = collect_all entries2.
Proof.
  intros H. apply sorted_unique; try apply collect_all_sorted.
  intros x. rewrite !collect_all_In. apply H.
Qed.

(** C1, as the specification words it, fails: with [a.asi] and [B.asi] in
    the plugins directory the entry point of [B.asi] is called first,
    whereas the case-insensitive ascending order puts [a.asi] first. *)
Lemma case_insensitive_order_violated :
  discovered mixed_case_world 6 = ["B.asi"; "a.asi"]
  /\ case_insensitive_order (discovered mixed_case_world 6) = ["a.asi"; "B.asi"]
  /\ calls (trace (lifetime mixed_case_world loader_module 1))
     = [0x30001000; 0x20001000]
  /\ calls (trace (lifetime mixed_case_world loader_module 1))
     <> flat_map (plugin_inits mixed_case_world (plugin_directory mixed_case_world 6))
          (case_insensitive_order (discovered mixed_case_world 6)).
Proof.
  repeat split; try (vm_compute; reflexivity).
  vm_compute. discriminate.
Qed.

(** C1, amended: for an identified host whose plugin names fit the
    buffer, the names of the accepted directory entries are held in
    strictly ascending order of their code units (the order of
    [std::set<std::wstring>], upper case before lower case), and one run of
    the trigger calls the entry points of the plugins that have one in
    exactly that order of the names. *)
Theorem invocation_order_is_code_unit_order (w : World) (n : nat) (hModule : Z) :
  host_identified w n ->
  names_fit n (discovered w n) ->
  StronglySorted wstring_less (discovered w n)
  /\ (forall name,
         In name (discovered w n)
         <-> exists ffd, In ffd (FindFiles w (search_pattern w n))
                         /\ accepted ffd = true /\ cFileName ffd = name)
  /\ calls (trace (lifetime w hModule 1))
     = flat_map (plugin_inits w (plugin_directory w n)) (discovered w n).
Proof.
  intros Hh Hf. split; [apply collect_all_sorted|].
  split; [intros name; apply collect_all_In|].
  rewrite (lifetime_run w n) by assumption. cbn [trace].
  rewrite calls_app, calls_startup_events, calls_fire_events.
  cbn [repeat List.concat app loaded_state with_handle recorded initialise_vectors
         initial_state].
  now rewrite app_nil_r.
Qed.

Lemma mixed_case_world_identified : host_identified mixed_case_world 6.
Proof. split; [discriminate | reflexivity]. Defined.

Lemma mixed_case_world_fits : names_fit 6 (discovered mixed_case_world 6).
Proof. repeat constructor. Defined.

Lemma invocation_order_witness :
  host_identified mixed_case_world 6
  /\ names_fit 6 (discovered mixed_case_world 6)
  /\ calls (trace (lifetime mixed_case_world loader_module 1))
     = flat_map (plugin_inits mixed_case_world (plugin_directory mixed_case_world 6))
         ["B.asi"; "a.asi"].
Proof.
  split; [exact mixed_case_world_identified|].
  split; [exact mixed_case_world_fits|].
  exact (proj2 (proj2 (invocation_order_is_code_unit_order mixed_case_world 6
                         loader_module mixed_case_world_identified
                         mixed_case_world_fits))).
Defined.

(** ** The steps of the entry shim *)

(** C2, as the specification words it, fails: on process attach the patch
    is installed before the loader is pinned. *)
Lemma pin_before_patch_violated :
  trace (DllMain mixed_case_world loader_module DLL_PROCESS_ATTACH 0 initial_state)
  = [EvCallPatch 0x45C489 0x10002000;
     EvGetModuleHandleExW GET_MODULE_HANDLE_EX_FLAG_FROM_ADDRESS 0x10001000;
     EvCreateThread 0x10001000 loader_module]
  /\ pin_patch_start
       (trace (DllMain mixed_case_world loader_module DLL_PROCESS_ATTACH 0 initial_state))
     = false.
Proof. split; vm_compute; reflexivity. Qed.

(** C2, amended: on process attach [DllMain] first installs the patch at
    [0x5C489] from the base of the host (showing a dialog if that fails),
    then pins the loader by the self-lookup by address, and only then, if
    the pin succeeded, creates the worker thread; without the pin it runs
    [AsiLoad] itself and creates no thread. *)
Theorem attach_patches_then_pins_then_starts (w : World) (hModule lpReserved : Z)
    (st : State) :
  exists tail,
    trace (DllMain w hModule DLL_PROCESS_ATTACH lpReserved st)
    = (EvCallPatch (DWORD (DWORD (GetModuleHandle w) + 0x5C489))
         (DWORD (addr_WaitForPlugins w))
       :: patch_dialog w
       ++ EvGetModuleHandleExW GET_MODULE_HANDLE_EX_FLAG_FROM_ADDRESS (addr_AsiLoad w)
       :: tail)%list
    /\ before is_patch is_pin (trace (DllMain w hModule DLL_PROCESS_ATTACH lpReserved st))
       = true
    /\ match pin w with
       | Some _ =>
           (exists tail', tail = EvCreateThread (addr_AsiLoad w) hModule :: tail')
           /\ patch_pin_start
                (trace (DllMain w hModule DLL_PROCESS_ATTACH lpReserved st)) = true
       | None => tail = trace (AsiLoad w 0 st)
       end.
Proof.
  assert (forall tail,
             before is_patch is_pin (attach_events w ++ tail) = true) as Hpp.
  { intros tail. unfold attach_events, patch_dialog.
    destruct (patched w); reflexivity. }
  assert (forall tail,
             before is_pin is_start
               (attach_events w ++ EvCreateThread (addr_AsiLoad w) hModule :: tail)
             = true) as Hps.
  { intros tail. unfold attach_events, patch_dialog.
    destruct (patched w); reflexivity. }
  assert (forall tail,
             (attach_events w ++ tail
              = EvCallPatch (DWORD (DWORD (GetModuleHandle w) + 0x5C489))
                  (DWORD (addr_WaitForPlugins w))
                :: patch_dialog w
                ++ EvGetModuleHandleExW GET_MODULE_HANDLE_EX_FLAG_FROM_ADDRESS
                     (addr_AsiLoad w)
                :: tail)%list) as Hshape.
  { intros tail. unfold attach_events. cbn [app]. now rewrite <- app_assoc. }
  destruct (pin w) as [m|] eqn:Hp.
  - destruct (Z.eq_dec (CreateThread w (addr_AsiLoad w) hModule) 0) as [Hc|Hc].
    + rewrite (DllMain_degraded w hModule lpReserved m) by assumption.
      cbn [trace app]. eexists. split; [apply Hshape|].
      split; [apply Hpp|]. split; [eauto|].
      unfold patch_pin_start. now rewrite Hpp, Hps.
    + rewrite (DllMain_spawned w hModule lpReserved m) by assumption.
      cbn [trace]. eexists. split; [apply Hshape|].
      split; [apply Hpp|]. split; [eauto|].
      unfold patch_pin_start. now rewrite Hpp, Hps.
  - rewrite DllMain_unpinned by assumption. cbn [trace].
    eexists. split; [apply Hshape|]. split; [apply Hpp | reflexivity].
Qed.

(** ** The filter of discovery *)

Lemma accepted_spec (ffd : WIN32_FIND_DATA) :
  accepted ffd = true
  <-> Z.land (dwFileAttributes ffd) FILE_ATTRIBUTE_DIRECTORY = 0
      /\ ends_with_asi (cFileName ffd).
Proof.
  unfold accepted. now rewrite andb_true_iff, Z.eqb_eq, PathMatchSpec_asi.
Qed.

(** C3: discovery keeps a directory entry only if it is not a directory
    and its name is some characters followed by [.asi] and nothing more;
    every path [AsiLoad] hands to [LoadLibrary] is the plugins directory
    followed by the name of such an entry; so no path that ends in
    [foo.asi.txt] is ever loaded, neither by [AsiLoad] nor anywhere in the
    process, whatever the enumeration returns. *)
Theorem only_asi_files_are_loaded :
  (forall (entries : list WIN32_FIND_DATA) (name : string),
      In name (collect_all entries) ->
      exists ffd, In ffd entries /\ cFileName ffd = name
                  /\ Z.land (dwFileAttributes ffd) FILE_ATTRIBUTE_DIRECTORY = 0
                  /\ PathMatchSpec name PLUGINFILTER = true
                  /\ ends_with_asi name)
  /\ (forall (w : World) (hModule : Z) (st : State) (f : string),
         In f (loads (trace (AsiLoad w hModule st))) ->
         exists n ffd, host_identified w n
                       /\ In ffd (FindFiles w (search_pattern w n))
                       /\ Z.land (dwFileAttributes ffd) FILE_ATTRIBUTE_DIRECTORY = 0
                       /\ ends_with_asi (cFileName ffd)
                       /\ f = plugin_directory w n ++ cFileName ffd)
  /\ PathMatchSpec "foo.asi.txt" PLUGINFILTER = false
  /\ (forall (w : World) (hModule : Z) (st : State) (stem : string),
         ~ In (stem ++ "foo.asi.txt") (loads (trace (AsiLoad w hModule st))))
  /\ (forall (w : World) (hModule : Z) (reached : nat) (stem : string),
         ~ In (stem ++ "foo.asi.txt") (loads (trace (lifetime w hModule reached)))).
Proof.
  assert (forall (w : World) (hModule : Z) (st : State) (f : string),
             In f (loads (trace (AsiLoad w hModule st))) ->
             exists n ffd, host_identified w n
                           /\ In ffd (FindFiles w (search_pattern w n))
                           /\ Z.land (dwFileAttributes ffd) FILE_ATTRIBUTE_DIRECTORY = 0
                           /\ ends_with_asi (cFileName ffd)
                           /\ f = plugin_directory w n ++ cFileName ffd) as Hload.
  { intros w hModule st f Hf.
    destruct (loads_AsiLoad w hModule st f Hf) as (n & plugin & Hh & Hin & ->).
    apply collect_all_In in Hin. destruct Hin as (ffd & Hffd & Ha & <-).
    apply accepted_spec in Ha. destruct Ha as [Hd Hn].
    exists n, ffd. auto. }
  assert (forall (w : World) (hModule : Z) (st : State) (stem : string),
             ~ In (stem ++ "foo.asi.txt") (loads (trace (AsiLoad w hModule st))))
    as Hnever.
  { intros w hModule st stem Hf.
    destruct (Hload w hModule st _ Hf) as (n & ffd & _ & _ & _ & Hn & E).
    apply (asi_txt_rejected stem). rewrite E. now apply ends_with_asi_app. }
  split; [|split; [exact Hload|split; [reflexivity|split; [exact Hnever|]]]].
  - intros entries name Hin. apply collect_all_In in Hin.
    destruct Hin as (ffd & Hffd & Ha & <-).
    pose proof (proj1 (accepted_spec ffd) Ha) as [Hd Hn].
    exists ffd. repeat split; auto. now apply PathMatchSpec_asi.
  - intros w hModule reached stem Hf.
    destruct (loads_lifetime w hModule reached _ Hf) as (h & st & H).
    exact (Hnever w h st stem H).
Qed.

(** The enumeration of this world yields [foo.asi.txt], which would load
    if it were tried, and a directory [old.asi]; neither is loaded. *)
Lemma only_asi_files_witness :
  In (file "foo.asi.txt")
    (FindFiles broken_plugin_world (search_pattern broken_plugin_world 6))
  /\ LoadLibrary broken_plugin_world "C:\S4\plugins\foo.asi.txt" <> 0
  /\ ~ In ("C:\S4\plugins\" ++ "foo.asi.txt")
         (loads (trace (lifetime broken_plugin_world loader_module 1)))
  /\ loads (trace (lifetime broken_plugin_world loader_module 1))
     = ["C:\S4\plugins\alpha.asi"; "C:\S4\plugins\broken.asi";
        "C:\S4\plugins\silent.asi"; "C:\S4\plugins\zeta.asi"].
Proof.
  split; [vm_compute; auto 10|].
  split; [vm_compute; discriminate|].
  split; [|vm_compute; reflexivity].
  exact (proj2 (proj2 (proj2 (proj2 only_asi_files_are_loaded)))
           broken_plugin_world loader_module 1%nat "C:\S4\plugins\").
Defined.

(** ** The trigger *)

(** C4: when the worker handle is not null and the wait on it returns a
    status other than [WAIT_OBJECT_0], the trigger shows the error dialog
    with the status and the error code, clears the handle, then calls
    every recorded entry point in the order of the list and returns 1. *)
Theorem wait_anomaly_still_fires (w : World) (st : State) :
  loader_init_thread_handle st <> 0 ->
  WaitForSingleObject w (loader_init_thread_handle st) INFINITE <> WAIT_OBJECT_0 ->
  WaitForPlugins w st
  = mkRun (Normal 1) (joined st)
      (EvWaitForSingleObject (loader_init_thread_handle st) INFINITE
       :: EvMessageBox
            ("Failed to wait for asi loader thread (status code: "
               ++ format_x (WaitForSingleObject w (loader_init_thread_handle st) INFINITE)
               ++ "): "
               ++ to_string
                    (GetLastError w
                       (ApiWaitForSingleObject (loader_init_thread_handle st))))
            "ASI Loader - Error" MB_OK
       :: map EvInitAsi (initialise_vectors st))
  /\ calls (trace (WaitForPlugins w st)) = initialise_vectors st.
Proof.
  intros Hh Hs. rewrite WaitForPlugins_run. cbn [trace]. unfold join_events.
  apply Z.eqb_neq in Hh, Hs. rewrite Hh, Hs. split; [reflexivity|].
  cbn [app calls]. apply calls_map_EvInitAsi.
Qed.

Lemma wait_anomaly_witness :
  loader_init_thread_handle (loaded_state wait_failed_world 6 loader_module) <> 0
  /\ WaitForSingleObject wait_failed_world
       (loader_init_thread_handle (loaded_state wait_failed_world 6 loader_module))
       INFINITE <> WAIT_OBJECT_0
  /\ trace (WaitForPlugins wait_failed_world
              (loaded_state wait_failed_world 6 loader_module))
     = [EvWaitForSingleObject 0x1A4 INFINITE;
        EvMessageBox "Failed to wait for asi loader thread (status code: ffffffff): 6"
          "ASI Loader - Error" MB_OK;
        EvInitAsi 0x20001000; EvInitAsi 0x30001000].
Proof.
  assert (loader_init_thread_handle (loaded_state wait_failed_world 6 loader_module)
          <> 0) as Hh by (vm_compute; discriminate).
  assert (WaitForSingleObject wait_failed_world
            (loader_init_thread_handle (loaded_state wait_failed_world 6 loader_module))
            INFINITE <> WAIT_OBJECT_0) as Hs by (vm_compute; discriminate).
  split; [exact Hh|]. split; [exact Hs|].
  rewrite (proj1 (wait_anomaly_still_fires wait_failed_world _ Hh Hs)).
  vm_compute. reflexivity.
Defined.

(** ** A plugin that does not load *)

Lemma flat_map_middle (A B : Type) (f : A -> list B) (l1 l2 : list A) (x : A) :
  flat_map f (l1 ++ x :: l2) = (flat_map f l1 ++ f x ++ flat_map f l2)%list.
Proof. now rewrite flat_map_app. Qed.

(** The plugins the loop reaches are the first plugins of the set. *)
Lemma fitting_prefix (remainingLen : Z) (plugins : list string) :
  exists rest, plugins = (fitting remainingLen plugins ++ rest)%list.
Proof.
  induction plugins as [|p l [rest IH]]; [now exists []|]. cbn [fitting].
  destruct (Z.of_nat (String.length p) <? remainingLen).
  - exists rest. cbn [app]. now rewrite <- IH.
  - now exists (p :: l).
Qed.

Lemma fitting_NoDup (w : World) (n : nat) :
  NoDup (fitting (room n) (discovered w n)).
Proof.
  pose proof (sorted_NoDup _ (collect_all_sorted (FindFiles w (search_pattern w n))))
    as Hnd.
  fold (discovered w n) in Hnd.
  destruct (fitting_prefix (room n) (discovered w n)) as [rest E].
  rewrite E in Hnd. now apply NoDup_app_remove_r in Hnd.
Qed.

(** C5, as the specification words it, fails: here [a.asi] does not map,
    the next name of the set does not fit the path buffer, and [z.asi],
    which would map, is never handed to [LoadLibrary]: the loading does
    not go on through all the remaining plugins. *)
Lemma remaining_plugins_not_all_loaded :
  discovered unmapped_then_overlong_world 12 = ["a.asi"; long_name; "z.asi"]
  /\ LoadLibrary unmapped_then_overlong_world
       (plugin_directory unmapped_then_overlong_world 12 ++ "a.asi") = 0
  /\ LoadLibrary unmapped_then_overlong_world
       (plugin_directory unmapped_then_overlong_world 12 ++ "z.asi") <> 0
  /\ result (AsiLoad unmapped_then_overlong_world loader_module initial_state) = Fault
  /\ loads (trace (AsiLoad unmapped_then_overlong_world loader_module initial_state))
     = ["C:\Games\S4\plugins\a.asi"]
  /\ ~ In (plugin_directory unmapped_then_overlong_world 12 ++ "z.asi")
         (loads (trace (AsiLoad unmapped_then_overlong_world loader_module
                          initial_state))).
Proof.
  split; [vm_compute; reflexivity|]. split; [vm_compute; reflexivity|].
  split; [vm_compute; discriminate|]. split; [vm_compute; reflexivity|].
  split; [vm_compute; reflexivity|].
  vm_compute. intros [H|[]]. discriminate.
Qed.

(** C5, amended: when a plugin that [AsiLoad] reaches does not map,
    [AsiLoad] shows for it the one warning that names its path and the
    error code, records no entry point for it and goes on with the plugins
    after it, up to the first name of the set that does not fit the path
    buffer: the plugins reached before it and after it are handled as if
    it were absent, every later plugin that is reached is handed to
    [LoadLibrary] and its entry point is recorded.  [AsiLoad] returns 0
    when every name fits, and then the plugins reached are the whole set;
    otherwise it ends at the name that does not fit. *)
Theorem failed_plugin_is_skipped (w : World) (n : nat) (hModule : Z) (st : State)
    (earlier later : list string) (plugin : string) :
  host_identified w n ->
  fitting (room n) (discovered w n) = (earlier ++ plugin :: later)%list ->
  LoadLibrary w (plugin_directory w n ++ plugin) = 0 ->
  result (AsiLoad w hModule st)
  = (if all_fit (room n) (discovered w n) then Normal 0 else Fault)
  /\ trace (AsiLoad w hModule st)
     = (EvFindFirstFile (search_pattern w n)
        :: flat_map (plugin_events w (plugin_directory w n)) earlier
        ++ [EvLoadLibrary (plugin_directory w n ++ plugin);
            EvMessageBox
              ("Cannot load plugin" ++ nl ++ (plugin_directory w n ++ plugin) ++ nl ++ nl
                 ++ "Error Code "
                 ++ fmt_d (GetLastError w (ApiLoadLibrary (plugin_directory w n ++ plugin)))
                 ++ ".")
              "ASI LOADER ERROR"
              (Z.lor MB_ICONEXCLAMATION (Z.lor MB_OK (Z.lor MB_TOPMOST MB_SETFOREGROUND)))]
        ++ flat_map (plugin_events w (plugin_directory w n)) later)%list
  /\ initialise_vectors (final (AsiLoad w hModule st))
     = (initialise_vectors st
        ++ flat_map (plugin_inits w (plugin_directory w n)) earlier
        ++ flat_map (plugin_inits w (plugin_directory w n)) later)%list
  /\ ~ In plugin earlier /\ ~ In plugin later
  /\ (forall other,
         In other later ->
         In (plugin_directory w n ++ other) (loads (trace (AsiLoad w hModule st)))
         /\ incl (plugin_inits w (plugin_directory w n) other)
              (initialise_vectors (final (AsiLoad w hModule st))))
  /\ (names_fit n (discovered w n) ->
      discovered w n = (earlier ++ plugin :: later)%list
      /\ result (AsiLoad w hModule st) = Normal 0).
Proof.
  intros Hh Hd Hl.
  rewrite (AsiLoad_run w n) by exact Hh. cbn [result final trace].
  assert (forall other,
             In other later ->
             In (plugin_directory w n ++ other)
               (loads (EvFindFirstFile (search_pattern w n)
                       :: flat_map (plugin_events w (plugin_directory w n))
                            (fitting (room n) (discovered w n))))
             /\ incl (plugin_inits w (plugin_directory w n) other)
                  (initialise_vectors
                     (recorded (flat_map (plugin_inits w (plugin_directory w n))
                                  (fitting (room n) (discovered w n))) st))) as Hlater.
  { intros other Hin.
    assert (In other (fitting (room n) (discovered w n))) as Hin'
      by (rewrite Hd; apply in_or_app; right; right; exact Hin).
    split.
    - cbn [loads]. rewrite loads_plugin_events. apply in_map_iff. eauto.
    - intros x Hx. cbn [recorded initialise_vectors]. apply in_or_app. right.
      apply in_flat_map. eauto. }
  pose proof (fitting_NoDup w n) as Hnd. rewrite Hd in Hnd.
  apply NoDup_remove_2 in Hnd. rewrite in_app_iff in Hnd.
  split; [reflexivity|].
  split; [|split; [|split; [tauto|split; [tauto|split; [exact Hlater|]]]]].
  - rewrite Hd, flat_map_middle. unfold plugin_events at 2. rewrite Hl. reflexivity.
  - cbn [recorded initialise_vectors].
    rewrite Hd, flat_map_middle. unfold plugin_inits at 2. rewrite Hl. reflexivity.
  - intros Hf. rewrite <- Hd.
    rewrite names_fit_all_fit, names_fit_fitting by exact Hf. auto.
Qed.

Lemma broken_plugin_world_identified : host_identified broken_plugin_world 6.
Proof. split; [discriminate | reflexivity]. Defined.

Lemma broken_plugin_world_fits : names_fit 6 (discovered broken_plugin_world 6).
Proof. repeat constructor. Defined.

Lemma failed_plugin_witness :
  fitting (room 6) (discovered broken_plugin_world 6)
  = (["alpha.asi"] ++ "broken.asi" :: ["silent.asi"; "zeta.asi"])%list
  /\ LoadLibrary broken_plugin_world (plugin_directory broken_plugin_world 6 ++ "broken.asi")
     = 0
  /\ dialogs (trace (AsiLoad broken_plugin_world loader_module initial_state))
     = [EvMessageBox
          ("Cannot load plugin" ++ nl ++ "C:\S4\plugins\broken.asi" ++ nl ++ nl
             ++ "Error Code 126.")
          "ASI LOADER ERROR" 0x50030]
  /\ initialise_vectors (final (AsiLoad broken_plugin_world loader_module initial_state))
     = [0x20001000; 0x40001000].
Proof.
  assert (fitting (room 6) (discovered broken_plugin_world 6)
          = (["alpha.asi"] ++ "broken.asi" :: ["silent.asi"; "zeta.asi"])%list) as Hd
    by reflexivity.
  assert (LoadLibrary broken_plugin_world
            (plugin_directory broken_plugin_world 6 ++ "broken.asi") = 0) as Hl
    by reflexivity.
  split; [exact Hd|]. split; [exact Hl|].
  destruct (failed_plugin_is_skipped broken_plugin_world 6 loader_module initial_state
              ["alpha.asi"] ["silent.asi"; "zeta.asi"] "broken.asi"
              broken_plugin_world_identified Hd Hl)
    as (_ & Ht & Hv & _).
  rewrite Ht, Hv. split; vm_compute; reflexivity.
Defined.

(** ** When no worker can be created *)

(** C6, as the specification words it, fails: here no worker thread can
    be created and a name of the set does not fit the path buffer; the
    load that [DllMain] runs itself ends at that name, [DllMain] does not
    return, and [z.asi], which is in the directory and would map, is not
    loaded. *)
Lemma degraded_mode_misses_a_plugin :
  pin unmapped_then_overlong_world = Some loader_module
  /\ CreateThread unmapped_then_overlong_world
       (addr_AsiLoad unmapped_then_overlong_world) loader_module = 0
  /\ In (file "z.asi")
       (FindFiles unmapped_then_overlong_world
          (search_pattern unmapped_then_overlong_world 12))
  /\ LoadLibrary unmapped_then_overlong_world
       (plugin_directory unmapped_then_overlong_world 12 ++ "z.asi") <> 0
  /\ result (DllMain unmapped_then_overlong_world loader_module DLL_PROCESS_ATTACH 0
               initial_state) = Fault
  /\ loads (trace (DllMain unmapped_then_overlong_world loader_module
                     DLL_PROCESS_ATTACH 0 initial_state))
     = ["C:\Games\S4\plugins\a.asi"]
  /\ initialise_vectors
       (final (DllMain unmapped_then_overlong_world loader_module DLL_PROCESS_ATTACH 0
                 initial_state)) = [].
Proof.
  split; [reflexivity|]. split; [reflexivity|].
  split; [vm_compute; auto|]. split; [vm_compute; discriminate|].
  repeat split; vm_compute; reflexivity.
Qed.

(** C6, amended: when the loader is pinned but [CreateThread] fails,
    [DllMain] shows no dialog about it and runs [AsiLoad] itself.  For an
    identified host, every plugin of the set up to the first name that
    does not fit the path buffer has then been handed to [LoadLibrary] and
    its entry point is in the list; when every name fits these are all the
    plugins of the set, [DllMain] releases the pin and returns [TRUE], and
    a run of the trigger calls all the entry points; otherwise [DllMain]
    ends at the name that does not fit and does not return. *)
Theorem degraded_mode_loads_before_return (w : World) (n : nat)
    (hModule lpReserved m : Z) :
  pin w = Some m ->
  CreateThread w (addr_AsiLoad w) hModule = 0 ->
  host_identified w n ->
  result (DllMain w hModule DLL_PROCESS_ATTACH lpReserved initial_state)
  = (if all_fit (room n) (discovered w n) then Normal TRUE else Fault)
  /\ trace (DllMain w hModule DLL_PROCESS_ATTACH lpReserved initial_state)
     = (attach_events w
        ++ EvCreateThread (addr_AsiLoad w) hModule
        :: trace (AsiLoad w 0 initial_state)
        ++ (if all_fit (room n) (discovered w n) then [EvFreeLibrary m] else []))%list
  /\ dialogs (trace (DllMain w hModule DLL_PROCESS_ATTACH lpReserved initial_state))
     = (patch_dialog w ++ dialogs (trace (AsiLoad w 0 initial_state)))%list
  /\ loads (trace (DllMain w hModule DLL_PROCESS_ATTACH lpReserved initial_state))
     = map (fun plugin => plugin_directory w n ++ plugin)
         (fitting (room n) (discovered w n))
  /\ initialise_vectors
       (final (DllMain w hModule DLL_PROCESS_ATTACH lpReserved initial_state))
     = flat_map (plugin_inits w (plugin_directory w n))
         (fitting (room n) (discovered w n))
  /\ loader_init_thread_handle
       (final (DllMain w hModule DLL_PROCESS_ATTACH lpReserved initial_state)) = 0
  /\ (names_fit n (discovered w n) ->
      result (DllMain w hModule DLL_PROCESS_ATTACH lpReserved initial_state)
      = Normal TRUE
      /\ loads (trace (DllMain w hModule DLL_PROCESS_ATTACH lpReserved initial_state))
         = map (fun plugin => plugin_directory w n ++ plugin) (discovered w n)
      /\ initialise_vectors
           (final (DllMain w hModule DLL_PROCESS_ATTACH lpReserved initial_state))
         = flat_map (plugin_inits w (plugin_directory w n)) (discovered w n)
      /\ calls (trace (WaitForPlugins w
                         (final (DllMain w hModule DLL_PROCESS_ATTACH lpReserved
                                   initial_state))))
         = flat_map (plugin_inits w (plugin_directory w n)) (discovered w n)).
Proof.
  intros Hp Hc Hh.
  rewrite (DllMain_degraded w hModule lpReserved m) by assumption.
  change (joined initial_state) with initial_state.
  rewrite (AsiLoad_run w n) by exact Hh.
  cbn [result final trace recorded initialise_vectors loader_init_thread_handle
         initial_state app].
  assert (dialogs (attach_events w) = patch_dialog w) as Hda.
  { unfold attach_events. rewrite dialogs_app. cbn [dialogs app].
    rewrite app_nil_r. unfold patch_dialog. now destruct (patched w). }
  assert (forall t, loads (attach_events w ++ t) = loads t) as Hla
    by (intros t; unfold attach_events, patch_dialog; now destruct (patched w)).
  assert (returned (if all_fit (room n) (discovered w n) then @Normal Z 0 else Fault)
          = all_fit (room n) (discovered w n)) as ->
    by (now destruct (all_fit (room n) (discovered w n))).
  assert (then_return (if all_fit (room n) (discovered w n) then @Normal Z 0 else Fault)
            TRUE
          = if all_fit (room n) (discovered w n) then Normal TRUE else Fault) as ->
    by (now destruct (all_fit (room n) (discovered w n))).
  assert (loads (attach_events w
                 ++ EvCreateThread (addr_AsiLoad w) hModule
                 :: (EvFindFirstFile (search_pattern w n)
                     :: flat_map (plugin_events w (plugin_directory w n))
                          (fitting (room n) (discovered w n)))
                 ++ (if all_fit (room n) (discovered w n) then [EvFreeLibrary m]
                     else []))
          = map (fun plugin => plugin_directory w n ++ plugin)
              (fitting (room n) (discovered w n))) as Hloads.
  { rewrite Hla. cbn [loads app]. rewrite loads_app, loads_plugin_events.
    destruct (all_fit (room n) (discovered w n)); cbn [loads]; now rewrite app_nil_r. }
  split; [reflexivity|]. split; [reflexivity|].
  split.
  { rewrite dialogs_app, Hda. cbn [dialogs]. rewrite dialogs_app.
    destruct (all_fit (room n) (discovered w n)); cbn [dialogs];
      now rewrite app_nil_r. }
  split; [exact Hloads|].
  split; [reflexivity|]. split; [reflexivity|].
  intros Hf.
  rewrite (names_fit_all_fit n _ Hf), (names_fit_fitting n _ Hf) in Hloads.
  rewrite (names_fit_all_fit n _ Hf), (names_fit_fitting n _ Hf).
  split; [reflexivity|]. split; [exact Hloads|]. split; [reflexivity|].
  rewrite WaitForPlugins_run. cbn [trace initialise_vectors].
  now rewrite calls_app, calls_join_events, calls_map_EvInitAsi.
Qed.

Lemma no_thread_world_identified : host_identified no_thread_world 6.
Proof. split; [discriminate | reflexivity]. Defined.

Lemma no_thread_world_fits : names_fit 6 (discovered no_thread_world 6).
Proof. repeat constructor. Defined.

Lemma degraded_mode_witness :
  pin no_thread_world = Some loader_module
  /\ CreateThread no_thread_world (addr_AsiLoad no_thread_world) loader_module = 0
  /\ initialise_vectors
       (final (DllMain no_thread_world loader_module DLL_PROCESS_ATTACH 0 initial_state))
     = [0x20001000; 0x30001000]
  /\ dialogs (trace (DllMain no_thread_world loader_module DLL_PROCESS_ATTACH 0
                       initial_state)) = [].
Proof.
  split; [reflexivity|]. split; [reflexivity|].
  destruct (degraded_mode_loads_before_return no_thread_world 6 loader_module 0
              loader_module eq_refl eq_refl no_thread_world_identified)
    as (_ & _ & Hd & _ & Hv & _).
  rewrite Hd, Hv. split; vm_compute; reflexivity.
Defined.

(** ** A host that cannot be identified *)

(** C7: when [GetModuleHandle(NULL)] answers null, or [GetModuleFileName]
    answers no character, [AsiLoad] shows the error dialog and calls
    [ExitProcess]; it searches no directory, loads no library and leaves
    the list of entry points as it was. *)
Theorem unidentified_host_is_fatal (w : World) (hModule : Z) (st : State) :
  GetModuleHandle w = 0 \/ GetModuleFileName w (GetModuleHandle w) = "" ->
  AsiLoad w hModule st
  = mkRun (Exited 0) st
      [EvMessageBox
         ((if GetModuleHandle w =? 0 then "Cannot get module handle of your exe."
           else "Cannot get file name of your exe.")
            ++ nl ++ nl ++ "Error Code "
            ++ fmt_d (GetLastError w (if GetModuleHandle w =? 0 then ApiGetModuleHandle
                                      else ApiGetModuleFileName))
            ++ ".")
         "ASI LOADER ERROR" (Z.lor MB_ICONERROR (Z.lor MB_TOPMOST MB_SETFOREGROUND));
       EvExitProcess 0]
  /\ searches (trace (AsiLoad w hModule st)) = []
  /\ loads (trace (AsiLoad w hModule st)) = []
  /\ calls (trace (AsiLoad w hModule st)) = [].
Proof.
  intros H.
  assert (AsiLoad w hModule st
          = mkRun (Exited 0) st
              [fatal_dialog w
                 (if GetModuleHandle w =? 0 then "Cannot get module handle of your exe."
                  else "Cannot get file name of your exe.")
                 (if GetModuleHandle w =? 0 then ApiGetModuleHandle
                  else ApiGetModuleFileName);
               EvExitProcess 0]) as ->.
  { destruct (Z.eq_dec (GetModuleHandle w) 0) as [E|E].
    - rewrite AsiLoad_no_module by exact E. now rewrite E.
    - destruct H as [H|H]; [contradiction|].
      rewrite AsiLoad_no_filename by assumption.
      apply Z.eqb_neq in E. now rewrite E. }
  repeat split.
Qed.

Lemma unidentified_host_witness :
  (GetModuleHandle no_module_world = 0
   \/ GetModuleFileName no_module_world (GetModuleHandle no_module_world) = "")
  /\ AsiLoad no_module_world loader_module initial_state
     = mkRun (Exited 0) initial_state
         [EvMessageBox
            ("Cannot get module handle of your exe." ++ nl ++ nl ++ "Error Code 6.")
            "ASI LOADER ERROR" 0x50010;
          EvExitProcess 0].
Proof.
  split; [left; reflexivity|].
  rewrite (proj1 (unidentified_host_is_fatal no_module_world loader_module
                    initial_state (or_introl eq_refl))).
  vm_compute. reflexivity.
Defined.

(** ** How often the entry points are called *)

Lemma plugin_inits_length (w : World) (plugindir plugin : string) :
  (List.length (plugin_inits w plugindir plugin) <= 1)%nat.
Proof.
  unfold plugin_inits.
  destruct (LoadLibrary w (plugindir ++ plugin) =? 0); [simpl; lia|].
  destruct (GetProcAddress w _ _ =? 0); simpl; lia.
Qed.

Lemma count_occ_concat_repeat (l : list Z) (k : nat) (x : Z) :
  count_occ Z.eq_dec (List.concat (repeat l k)) x
  = (k * count_occ Z.eq_dec l x)%nat.
Proof.
  induction k as [|k IH]; [reflexivity|].
  cbn [repeat List.concat]. rewrite count_occ_app, IH. lia.
Qed.

(** C8, as the specification words it, fails: nothing keeps the trigger
    from running again, and when the host runs the patched call site
    twice the entry point of [B.asi] is called twice in the process. *)
Lemma second_run_calls_again :
  calls (trace (lifetime mixed_case_world loader_module 2))
  = [0x30001000; 0x20001000; 0x30001000; 0x20001000]
  /\ plugin_inits mixed_case_world (plugin_directory mixed_case_world 6) "B.asi"
     = [0x30001000]
  /\ count_occ Z.eq_dec (calls (trace (lifetime mixed_case_world loader_module 2)))
       0x30001000 = 2%nat
  /\ ~ (count_occ Z.eq_dec (calls (trace (lifetime mixed_case_world loader_module 2)))
          0x30001000%Z <= 1)%nat.
Proof.
  split; [vm_compute; reflexivity|]. split; [vm_compute; reflexivity|].
  assert (count_occ Z.eq_dec
            (calls (trace (lifetime mixed_case_world loader_module 2))) 0x30001000
          = 2%nat) as H by (vm_compute; reflexivity).
  split; [exact H|]. rewrite H. lia.
Qed.

(** C8, amended: one run of the trigger calls every entry point of the
    list exactly once, in the order of the list; neither [AsiLoad] nor
    [DllMain] calls any.  The set holds every name once and every plugin
    gives at most one entry point, so, for an identified host whose plugin
    names fit, the calls of the process are the recorded entry points once
    for every time the host runs the patched call site: an entry point is
    called as often as it is in the list times the number of runs, hence
    at most once per process only when the host runs the call site at
    most once. *)
Theorem init_called_once_per_run (w : World) (n : nat) (hModule : Z) (reached : nat) :
  host_identified w n ->
  names_fit n (discovered w n) ->
  (forall st, calls (trace (WaitForPlugins w st)) = initialise_vectors st)
  /\ (forall h st, calls (trace (AsiLoad w h st)) = [])
  /\ (forall h reason reserved st, calls (trace (DllMain w h reason reserved st)) = [])
  /\ NoDup (discovered w n)
  /\ (forall plugin,
         (List.length (plugin_inits w (plugin_directory w n) plugin) <= 1)%nat)
  /\ calls (trace (lifetime w hModule reached))
     = List.concat
         (repeat (flat_map (plugin_inits w (plugin_directory w n)) (discovered w n))
            reached)
  /\ (forall init,
         count_occ Z.eq_dec (calls (trace (lifetime w hModule reached))) init
         = (reached
            * count_occ Z.eq_dec
                (flat_map (plugin_inits w (plugin_directory w n)) (discovered w n))
                init)%nat).
Proof.
  intros Hh Hf.
  assert (calls (trace (lifetime w hModule reached))
          = List.concat
              (repeat (flat_map (plugin_inits w (plugin_directory w n))
                         (discovered w n)) reached)) as Hcalls
    by (apply (calls_lifetime w n); assumption).
  split.
  { intros st. rewrite WaitForPlugins_run. cbn [trace].
    now rewrite calls_app, calls_join_events, calls_map_EvInitAsi. }
  split; [intros; apply calls_AsiLoad|].
  split; [intros; apply calls_DllMain|].
  split; [apply sorted_NoDup, collect_all_sorted|].
  split; [intros; apply plugin_inits_length|].
  split; [exact Hcalls|].
  intros init. rewrite Hcalls. apply count_occ_concat_repeat.
Qed.

Lemma init_called_once_per_run_witness :
  host_identified mixed_case_world 6
  /\ names_fit 6 (discovered mixed_case_world 6)
  /\ calls (trace (lifetime mixed_case_world loader_module 1))
     = [0x30001000; 0x20001000]
  /\ count_occ Z.eq_dec (calls (trace (lifetime mixed_case_world loader_module 1)))
       0x30001000 = 1%nat.
Proof.
  pose proof (init_called_once_per_run mixed_case_world 6 loader_module 1
                mixed_case_world_identified mixed_case_world_fits)
    as (_ & _ & _ & _ & _ & Hc & Hn).
  split; [exact mixed_case_world_identified|].
  split; [exact mixed_case_world_fits|].
  rewrite Hn, Hc. split; vm_compute; reflexivity.
Defined.

(** ** No plugins *)

Lemma nothing_accepted (entries : list WIN32_FIND_DATA) :
  (forall ffd, In ffd entries -> accepted ffd = false) -> collect_all entries = [].
Proof.
  intros H. destruct (collect_all entries) as [|name rest] eqn:E; [reflexivity|].
  assert (In name (collect_all entries)) as Hin by (rewrite E; now left).
  apply collect_all_In in Hin. destruct Hin as (ffd & Hffd & Ha & _).
  rewrite (H ffd Hffd) in Ha. discriminate.
Qed.

(** C9: when the search of the plugins directory yields nothing (the
    directory is missing or holds no match) or yields only entries that
    are not accepted, the set is empty, [AsiLoad] only searches, shows no
    dialog, leaves the list of entry points as it was and returns 0; in
    the process the list is empty and a run of the trigger returns with
    no entry point called. *)
Theorem no_plugins_is_not_an_error (w : World) (n : nat) (hModule : Z) (st : State) :
  host_identified w n ->
  (forall ffd, In ffd (FindFiles w (search_pattern w n)) -> accepted ffd = false) ->
  discovered w n = []
  /\ AsiLoad w hModule st = mkRun (Normal 0) st [EvFindFirstFile (search_pattern w n)]
  /\ dialogs (trace (AsiLoad w hModule st)) = []
  /\ result (lifetime w hModule 1) = Normal tt
  /\ initialise_vectors (final (lifetime w hModule 1)) = []
  /\ calls (trace (lifetime w hModule 1)) = []
  /\ WaitForPlugins w (loaded_state w n hModule)
     = mkRun (Normal 1) (joined (loaded_state w n hModule))
         (join_events w (loaded_state w n hModule)).
Proof.
  intros Hh Hnone.
  assert (discovered w n = []) as Hd by (apply nothing_accepted; exact Hnone).
  assert (names_fit n (discovered w n)) as Hf by (rewrite Hd; constructor).
  assert (loaded_inits w n = []) as Hi by (unfold loaded_inits; now rewrite Hd).
  assert (loaded_state w n hModule = with_handle (spawned w hModule) initial_state)
    as Hs by (unfold loaded_state; now rewrite Hi, recorded_nil).
  split; [exact Hd|].
  rewrite (AsiLoad_fit w n) by assumption.
  rewrite (lifetime_run w n) by assumption.
  rewrite WaitForPlugins_run.
  unfold load_events. rewrite Hi, Hd, recorded_nil, Hs.
  cbn [flat_map result final trace dialogs].
  split; [reflexivity|]. split; [reflexivity|]. split; [reflexivity|].
  split; [reflexivity|]. split.
  - now rewrite calls_app, calls_startup_events, calls_fire_events.
  - cbn [with_handle initialise_vectors initial_state map]. now rewrite app_nil_r.
Qed.

Lemma no_plugins_world_identified : host_identified no_plugins_world 6.
Proof. split; [discriminate | reflexivity]. Defined.

Lemma no_plugins_witness :
  host_identified no_plugins_world 6
  /\ (forall ffd,
         In ffd (FindFiles no_plugins_world (search_pattern no_plugins_world 6)) ->
         accepted ffd = false)
  /\ AsiLoad no_plugins_world loader_module initial_state
     = mkRun (Normal 0) initial_state [EvFindFirstFile "C:\S4\plugins\*.asi"]
  /\ calls (trace (lifetime no_plugins_world loader_module 1)) = [].
Proof.
  assert (forall ffd,
             In ffd (FindFiles no_plugins_world (search_pattern no_plugins_world 6)) ->
             accepted ffd = false) as Hnone by (intros ffd []).
  pose proof (no_plugins_is_not_an_error no_plugins_world 6 loader_module initial_state
                no_plugins_world_identified Hnone)
    as (_ & Ha & _ & _ & _ & Hc & _).
  split; [exact no_plugins_world_identified|].
  split; [exact Hnone|]. split; [exact Ha | exact Hc].
Defined.

(** ** The trigger without a worker *)

(** C10: a run of the trigger that finds the worker handle null shows the
    dialog "asi loader thread failed to correctly initialize" and then
    calls the recorded entry points; every run of the trigger leaves the
    handle null, so a second run shows that dialog (and calls the entry
    points again); and the handle is null after a [DllMain] that could not
    create the worker and loaded the plugins itself, so there the first
    run shows the dialog before it calls the entry points of the plugins
    that were loaded. *)
Theorem null_handle_shows_dialog (w : World) (st : State) :
  (loader_init_thread_handle st = 0 ->
   WaitForPlugins w st
   = mkRun (Normal 1) st
       (EvMessageBox "asi loader thread failed to correctly initialize"
          "ASI Loader - Error" MB_OK
        :: map EvInitAsi (initialise_vectors st)))
  /\ loader_init_thread_handle (final (WaitForPlugins w st)) = 0
  /\ WaitForPlugins w (final (WaitForPlugins w st))
     = mkRun (Normal 1) (joined st)
         (EvMessageBox "asi loader thread failed to correctly initialize"
            "ASI Loader - Error" MB_OK
          :: map EvInitAsi (initialise_vectors st))
  /\ (forall (n : nat) (hModule lpReserved m : Z),
         pin w = Some m ->
         CreateThread w (addr_AsiLoad w) hModule = 0 ->
         host_identified w n ->
         names_fit n (discovered w n) ->
         trace (WaitForPlugins w
                  (final (DllMain w hModule DLL_PROCESS_ATTACH lpReserved initial_state)))
         = EvMessageBox "asi loader thread failed to correctly initialize"
             "ASI Loader - Error" MB_OK
           :: map EvInitAsi (loaded_inits w n)).
Proof.
  split.
  { intros H. rewrite WaitForPlugins_run, joined_null by exact H.
    unfold join_events. rewrite H. reflexivity. }
  split; [now rewrite WaitForPlugins_run|].
  split; [now rewrite !WaitForPlugins_run|].
  intros n hModule lpReserved m Hp Hc Hh Hf.
  rewrite (DllMain_degraded w hModule lpReserved m) by assumption.
  change (joined initial_state) with initial_state.
  rewrite (AsiLoad_fit w n) by assumption. cbn [final].
  now rewrite WaitForPlugins_run.
Qed.

Lemma null_handle_witness :
  loader_init_thread_handle
    (final (DllMain no_thread_world loader_module DLL_PROCESS_ATTACH 0 initial_state)) = 0
  /\ trace (WaitForPlugins no_thread_world
              (final (DllMain no_thread_world loader_module DLL_PROCESS_ATTACH 0
                        initial_state)))
     = [EvMessageBox "asi loader thread failed to correctly initialize"
          "ASI Loader - Error" MB_OK;
        EvInitAsi 0x20001000; EvInitAsi 0x30001000].
Proof.
  assert (loader_init_thread_handle
            (final (DllMain no_thread_world loader_module DLL_PROCESS_ATTACH 0
                      initial_state)) = 0) as H0 by reflexivity.
  split; [exact H0|].
  rewrite (proj1 (null_handle_shows_dialog no_thread_world _) H0).
  reflexivity.
Defined.

(** * Further properties of the code *)

(** ** Discovery *)

(** X1: the set that discovery builds depends on which directory entries
    the enumeration yields, not on the order in which it yields them nor
    on how often it yields one: two enumerations with the same entries
    give the same plugins in the same order. *)
Theorem discovery_ignores_enumeration_order (entries1 entries2 : list WIN32_FIND_DATA) :
  (forall ffd, In ffd entries1 <-> In ffd entries2) ->
  collect_all entries1 = collect_all entries2.
Proof.
  intros H. apply discovery_order_independent. intros name.
  split; intros (ffd & Hin & Ha & Hn); exists ffd; (split; [apply H; exact Hin | auto]).
Qed.

Lemma discovery_ignores_enumeration_order_witness :
  (forall ffd,
      In ffd [file "b.asi"; file "a.asi"]
      <-> In ffd [file "a.asi"; file "b.asi"; file "a.asi"])
  /\ collect_all [file "b.asi"; file "a.asi"]
     = collect_all [file "a.asi"; file "b.asi"; file "a.asi"].
Proof.
  assert (forall ffd,
             In ffd [file "b.asi"; file "a.asi"]
             <-> In ffd [file "a.asi"; file "b.asi"; file "a.asi"]) as H
    by (intros ffd; simpl; tauto).
  split; [exact H|].
  exact (discovery_ignores_enumeration_order _ _ H).
Defined.

(** ** The directory of the plugins *)

Lemma directory_end_None (s : string) :
  directory_end s = None <-> backslash_free s = true.
Proof.
  induction s as [|c s IH]; simpl; [tauto|].
  destruct (directory_end s) as [m|].
  - split; [discriminate|]. rewrite andb_true_iff. intros [_ H].
    apply IH in H. discriminate.
  - destruct (Ascii.eqb c "\"); simpl; [split; discriminate|]. tauto.
Qed.

Lemma directory_end_Some (s : string) (n : nat) :
  directory_end s = Some n ->
  exists dir base,
    s = dir ++ String "\" base /\ backslash_free base = true
    /\ n = S (String.length dir) /\ String.substring 0 n s = dir ++ "\".
Proof.
  revert n. induction s as [|c s IH]; intros n; simpl; [discriminate|].
  destruct (directory_end s) as [m|] eqn:E.
  - intros H. inversion H. subst n.
    destruct (IH m eq_refl) as (dir & base & Hs & Hb & Hm & Hsub).
    exists (String c dir), base. simpl. rewrite <- Hs, Hsub. auto.
  - destruct (Ascii.eqb c "\") eqn:Ec; [|discriminate].
    intros H. inversion H. subst n. apply Ascii.eqb_eq in Ec. subst c.
    exists "", s. simpl. apply directory_end_None in E.
    repeat split; auto. now destruct s.
Qed.

Lemma directory_end_le (s : string) (n : nat) :
  directory_end s = Some n -> (1 <= n <= String.length s)%nat.
Proof.
  intros H. destruct (directory_end_Some s n H) as (dir & base & -> & _ & -> & _).
  rewrite append_length. simpl. lia.
Qed.

Lemma searches_app (t1 t2 : list Event) :
  searches (t1 ++ t2) = (searches t1 ++ searches t2)%list.
Proof.
  induction t1 as [|e t1 IH]; [reflexivity|].
  destruct e; simpl; congruence.
Qed.

Lemma searches_plugin_events (w : World) (plugindir : string) (plugins : list string) :
  searches (flat_map (plugin_events w plugindir) plugins) = [].
Proof.
  induction plugins as [|p rest IH]; [reflexivity|].
  cbn [flat_map]. rewrite searches_app, IH. unfold plugin_events.
  now destruct (LoadLibrary w (plugindir ++ p) =? 0).
Qed.

(** X2: for an identified host, [AsiLoad] cuts the path of the executable
    behind its last backslash: the path is a directory, a backslash and a
    base name without backslash, and the one search [AsiLoad] makes is for
    [plugins\*.asi] in that directory. *)
Theorem plugins_are_searched_beside_the_host (w : World) (n : nat) (hModule : Z)
    (st : State) :
  host_identified w n ->
  exists dir base,
    exe_filename w = dir ++ "\" ++ base
    /\ backslash_free base = true
    /\ n = S (String.length dir)
    /\ plugin_directory w n = dir ++ "\plugins\"
    /\ searches (trace (AsiLoad w hModule st)) = [dir ++ "\plugins\*.asi"].
Proof.
  intros Hh. pose proof Hh as [_ Hd].
  destruct (directory_end_Some _ _ Hd) as (dir & base & Hs & Hb & Hn & Hsub).
  exists dir, base.
  assert (plugin_directory w n = dir ++ "\plugins\") as Hp.
  { unfold plugin_directory. rewrite Hsub, append_assoc. reflexivity. }
  repeat split; auto.
  rewrite (AsiLoad_run w n) by exact Hh. cbn [trace searches].
  rewrite searches_plugin_events. unfold search_pattern.
  rewrite Hp, append_assoc. reflexivity.
Qed.

Lemma plugins_are_searched_beside_the_host_witness :
  host_identified mixed_case_world 6
  /\ exists dir base,
       exe_filename mixed_case_world = dir ++ "\" ++ base
       /\ backslash_free base = true
       /\ 6%nat = S (String.length dir)
       /\ plugin_directory mixed_case_world 6 = dir ++ "\plugins\"
       /\ searches (trace (AsiLoad mixed_case_world loader_module initial_state))
          = [dir ++ "\plugins\*.asi"].
Proof.
  split; [exact mixed_case_world_identified|].
  exact (plugins_are_searched_beside_the_host mixed_case_world 6 loader_module
           initial_state mixed_case_world_identified).
Defined.

(** ** The path buffer *)

Lemma room_value (n : nat) : (n <= 260)%nat -> room n = 267 - Z.of_nat n.
Proof.
  intros H. unfold room, countof_filename, countof_PLUGINDIR_PLUGINFILTER, MAX_PATH,
    DWORD.
  change (Z.of_nat (String.length (PLUGINDIR ++ PLUGINFILTER))) with 13.
  change (Z.of_nat (String.length PLUGINDIR)) with 8.
  rewrite (Z.mod_small (Z.of_nat n + (8 + 1) - 1)) by lia.
  rewrite Z.mod_small by lia. lia.
Qed.

Lemma fitting_fits (remainingLen : Z) (plugins : list string) (plugin : string) :
  In plugin (fitting remainingLen plugins) ->
  Z.of_nat (String.length plugin) < remainingLen.
Proof.
  induction plugins as [|p rest IH]; simpl; [contradiction|].
  destruct (Z.of_nat (String.length p) <? remainingLen) eqn:E; [|contradiction].
  intros [<-|H]; [now apply Z.ltb_lt | auto].
Qed.

Lemma host_identified_le (w : World) (n : nat) :
  host_identified w n -> (n <= 260)%nat.
Proof.
  intros [_ Hd]. apply directory_end_le in Hd.
  pose proof (substring_length (GetModuleFileName w (GetModuleHandle w)) 0 260) as L.
  unfold exe_filename in Hd. change (Z.to_nat MAX_PATH) with 260%nat in Hd. lia.
Qed.

(** X3: for an identified host, that is when the path of the executable
    has a backslash for the scan to stop at, the path buffer of [AsiLoad]
    is not overrun: the search pattern it builds, which is the one string
    it searches for, and every path it hands to [LoadLibrary] have fewer
    characters than the buffer has elements, so that each fits with its
    terminator. *)
Theorem path_buffer_is_never_overrun (w : World) (n : nat) (hModule : Z) (st : State) :
  host_identified w n ->
  Z.of_nat (String.length (search_pattern w n)) < countof_filename
  /\ searches (trace (AsiLoad w hModule st)) = [search_pattern w n]
  /\ forall path,
       In path (loads (trace (AsiLoad w hModule st))) ->
       Z.of_nat (String.length path) < countof_filename.
Proof.
  intros Hh.
  pose proof (host_identified_le w n Hh) as Hn.
  pose proof (substring_length (exe_filename w) 0 n) as Hsub.
  rewrite (AsiLoad_run w n) by exact Hh. cbn [trace searches loads].
  rewrite searches_plugin_events, loads_plugin_events.
  change countof_filename with 275.
  split; [|split; [reflexivity|]].
  - unfold search_pattern, plugin_directory. rewrite !append_length.
    change (String.length PLUGINDIR) with 8%nat.
    change (String.length PLUGINFILTER) with 5%nat. lia.
  - intros path H. apply in_map_iff in H. destruct H as (plugin & <- & Hin).
    apply fitting_fits in Hin. rewrite room_value in Hin by exact Hn.
    unfold plugin_directory. rewrite !append_length.
    change (String.length PLUGINDIR) with 8%nat. lia.
Qed.

Lemma path_buffer_is_never_overrun_witness :
  host_identified deep_host_world 12
  /\ loads (trace (AsiLoad deep_host_world loader_module initial_state))
     = ["C:\Games\S4\plugins\a.asi"]
  /\ Z.of_nat (String.length (search_pattern deep_host_world 12)) < countof_filename.
Proof.
  assert (host_identified deep_host_world 12) as Hh
    by (split; [discriminate | reflexivity]).
  split; [exact Hh|]. split; [vm_compute; reflexivity|].
  exact (proj1 (path_buffer_is_never_overrun deep_host_world 12 loader_module
                  initial_state Hh)).
Defined.

(** ** The loading loop *)

Lemma append_inv_head (a b c : string) : a ++ b = a ++ c -> b = c.
Proof. induction a; simpl; intros H; [exact H | inversion H; auto]. Qed.

Lemma NoDup_map_append (plugindir : string) (plugins : list string) :
  NoDup plugins -> NoDup (map (fun plugin => plugindir ++ plugin) plugins).
Proof.
  induction 1 as [|p rest Hp _ IH]; simpl; constructor; [|exact IH].
  rewrite in_map_iff. intros (q & E & Hq).
  apply append_inv_head in E. now subst q.
Qed.

Lemma discovered_NoDup (w : World) (n : nat) : NoDup (discovered w n).
Proof. apply sorted_NoDup, collect_all_sorted. Qed.

(** X4: for an identified host whose plugin names fit, every directory
    entry that is not a directory and whose name ends in [.asi], in any
    case of the letters, is handed to [LoadLibrary] exactly once, under
    the plugins directory; and no path is handed to it twice, however
    often the enumeration yields a name. *)
Theorem every_matching_file_is_loaded_once (w : World) (n : nat) (hModule : Z)
    (st : State) :
  host_identified w n ->
  names_fit n (discovered w n) ->
  NoDup (loads (trace (AsiLoad w hModule st)))
  /\ forall ffd,
       In ffd (FindFiles w (search_pattern w n)) ->
       Z.land (dwFileAttributes ffd) FILE_ATTRIBUTE_DIRECTORY = 0 ->
       ends_with_asi (cFileName ffd) ->
       count_occ string_dec (loads (trace (AsiLoad w hModule st)))
         (plugin_directory w n ++ cFileName ffd) = 1%nat.
Proof.
  intros Hh Hf. rewrite (AsiLoad_fit w n) by assumption.
  unfold load_events. cbn [trace loads]. rewrite loads_plugin_events.
  assert (NoDup (map (fun plugin => plugin_directory w n ++ plugin) (discovered w n)))
    as Hnd by apply NoDup_map_append, discovered_NoDup.
  split; [exact Hnd|].
  intros ffd Hin Hd Hn.
  apply (proj1 (NoDup_count_occ' string_dec _) Hnd).
  apply in_map. apply collect_all_In. exists ffd.
  split; [exact Hin|]. split; [|reflexivity].
  unfold accepted. rewrite andb_true_iff, Z.eqb_eq, PathMatchSpec_asi. auto.
Qed.

Lemma every_matching_file_is_loaded_once_witness :
  host_identified broken_plugin_world 6
  /\ names_fit 6 (discovered broken_plugin_world 6)
  /\ NoDup (loads (trace (AsiLoad broken_plugin_world loader_module initial_state))).
Proof.
  split; [exact broken_plugin_world_identified|].
  split; [exact broken_plugin_world_fits|].
  exact (proj1 (every_matching_file_is_loaded_once broken_plugin_world 6 loader_module
                  initial_state broken_plugin_world_identified
                  broken_plugin_world_fits)).
Defined.



Lemma dialogs_plugin_events (w : World) (plugindir : string) (plugins : list string) :
  dialogs (flat_map (plugin_events w plugindir) plugins)
  = map (fun plugin => load_warning w (plugindir ++ plugin))
      (filter (fun plugin => negb (maps w plugindir plugin)) plugins).
Proof.
  induction plugins as [|p rest IH]; [reflexivity|].
  cbn [flat_map filter]. rewrite dialogs_app, IH. unfold plugin_events, maps.
  destruct (LoadLibrary w (plugindir ++ p) =? 0); reflexivity.
Qed.

Lemma plugin_inits_exports (w : World) (plugindir : string) (plugins : list string) :
  flat_map (plugin_inits w plugindir) plugins
  = map (InitAsi_of w plugindir) (filter (exports_InitAsi w plugindir) plugins).
Proof.
  induction plugins as [|p rest IH]; [reflexivity|].
  cbn [flat_map filter]. rewrite IH.
  unfold plugin_inits, exports_InitAsi, maps, InitAsi_of.
  destruct (LoadLibrary w (plugindir ++ p) =? 0); [reflexivity|].
  destruct (GetProcAddress w _ _ =? 0); reflexivity.
Qed.

(** X6: for an identified host whose plugin names fit, the dialogs of
    [AsiLoad] are the warnings of the plugins that do not map, one each
    and in the order of loading, and nothing else; the entry points it
    appends are those of the plugins that map and export [InitAsi], one
    each and in the order of loading. *)
Theorem one_warning_per_unmapped_plugin (w : World) (n : nat) (hModule : Z)
    (st : State) :
  host_identified w n ->
  names_fit n (discovered w n) ->
  dialogs (trace (AsiLoad w hModule st))
  = map (fun plugin => load_warning w (plugin_directory w n ++ plugin))
      (filter (fun plugin => negb (maps w (plugin_directory w n) plugin))
         (discovered w n))
  /\ initialise_vectors (final (AsiLoad w hModule st))
     = (initialise_vectors st
        ++ map (InitAsi_of w (plugin_directory w n))
             (filter (exports_InitAsi w (plugin_directory w n)) (discovered w n)))%list.
Proof.
  intros Hh Hf. rewrite (AsiLoad_fit w n) by assumption.
  cbn [final trace recorded initialise_vectors]. unfold load_events, loaded_inits.
  cbn [dialogs]. now rewrite dialogs_plugin_events, plugin_inits_exports.
Qed.

Lemma one_warning_per_unmapped_plugin_witness :
  List.length (dialogs (trace (AsiLoad broken_plugin_world loader_module initial_state)))
  = 1%nat
  /\ filter (exports_InitAsi broken_plugin_world (plugin_directory broken_plugin_world 6))
       (discovered broken_plugin_world 6)
     = ["alpha.asi"; "zeta.asi"].
Proof.
  rewrite (proj1 (one_warning_per_unmapped_plugin broken_plugin_world 6 loader_module
                    initial_state broken_plugin_world_identified
                    broken_plugin_world_fits)).
  split; vm_compute; reflexivity.
Defined.

(** ** A name that does not fit the buffer *)

Lemma fitting_stops (n : nat) (earlier later : list string) (plugin : string) :
  names_fit n earlier ->
  room n <= Z.of_nat (String.length plugin) ->
  fitting (room n) (earlier ++ plugin :: later) = earlier
  /\ all_fit (room n) (earlier ++ plugin :: later) = false.
Proof.
  intros Hf Hl. unfold names_fit in Hf.
  induction Hf as [|p rest Hp _ IH]; cbn [app fitting all_fit forallb].
  - apply Z.ltb_ge in Hl. rewrite Hl. auto.
  - apply Z.ltb_lt in Hp. rewrite Hp. destruct IH as [-> IH].
    split; [reflexivity|]. exact IH.
Qed.

(** X7: when a name of the set does not fit behind the directory in the
    path buffer, [wcscpy_s] ends the loading there: the plugins before it
    in the order of loading have been handled and their entry points
    recorded, the name itself and every plugin after it are never handed
    to [LoadLibrary], and [AsiLoad] does not return. *)
Theorem overlong_name_stops_loading (w : World) (n : nat) (hModule : Z) (st : State)
    (earlier later : list string) (plugin : string) :
  host_identified w n ->
  discovered w n = (earlier ++ plugin :: later)%list ->
  names_fit n earlier ->
  room n <= Z.of_nat (String.length plugin) ->
  result (AsiLoad w hModule st) = Fault
  /\ trace (AsiLoad w hModule st)
     = EvFindFirstFile (search_pattern w n)
       :: flat_map (plugin_events w (plugin_directory w n)) earlier
  /\ initialise_vectors (final (AsiLoad w hModule st))
     = (initialise_vectors st
        ++ flat_map (plugin_inits w (plugin_directory w n)) earlier)%list
  /\ forall other,
       In other (plugin :: later) ->
       ~ In (plugin_directory w n ++ other) (loads (trace (AsiLoad w hModule st))).
Proof.
  intros Hh Hd Hf Hl. rewrite (AsiLoad_run w n) by exact Hh.
  destruct (fitting_stops n earlier later plugin Hf Hl) as [Hfit Hall].
  rewrite Hd, Hfit, Hall. cbn [result final trace recorded initialise_vectors].
  split; [reflexivity|]. split; [reflexivity|]. split; [reflexivity|].
  intros other Hin. cbn [loads]. rewrite loads_plugin_events, in_map_iff.
  intros (q & E & Hq). apply append_inv_head in E. subst q.
  pose proof (discovered_NoDup w n) as Hnd. rewrite Hd in Hnd.
  revert Hnd Hq Hin. clear. induction earlier as [|e earlier IH]; [contradiction|].
  cbn [app]. intros Hnd [->|Hq] Hin.
  - apply NoDup_cons_iff in Hnd. apply (proj1 Hnd). apply in_or_app. now right.
  - apply NoDup_cons_iff in Hnd. exact (IH (proj2 Hnd) Hq Hin).
Qed.

Lemma deep_host_world_identified : host_identified deep_host_world 12.
Proof. split; [discriminate | reflexivity]. Defined.

Lemma overlong_name_stops_loading_witness :
  discovered deep_host_world 12 = (["a.asi"] ++ long_name :: ["z.asi"])%list
  /\ names_fit 12 ["a.asi"]
  /\ room 12 <= Z.of_nat (String.length long_name)
  /\ result (AsiLoad deep_host_world loader_module initial_state) = Fault
  /\ loads (trace (AsiLoad deep_host_world loader_module initial_state))
     = ["C:\Games\S4\plugins\a.asi"].
Proof.
  assert (discovered deep_host_world 12 = (["a.asi"] ++ long_name :: ["z.asi"])%list)
    as Hd by (vm_compute; reflexivity).
  assert (names_fit 12 ["a.asi"]) as Hf by (repeat constructor).
  assert (room 12 <= Z.of_nat (String.length long_name)) as Hl
    by (vm_compute; discriminate).
  destruct (overlong_name_stops_loading deep_host_world 12 loader_module initial_state
              ["a.asi"] ["z.asi"] long_name deep_host_world_identified Hd Hf Hl)
    as (Hr & Ht & _).
  split; [exact Hd|]. split; [exact Hf|]. split; [exact Hl|].
  split; [exact Hr|]. rewrite Ht. vm_compute. reflexivity.
Defined.

(** ** What [AsiLoad] leaves alone *)

Lemma plugin_inits_nonnull (w : World) (plugindir : string) (plugins : list string) :
  Forall (fun init => init <> 0) (flat_map (plugin_inits w plugindir) plugins).
Proof.
  induction plugins as [|p rest IH]; [constructor|].
  cbn [flat_map]. apply Forall_app. split; [|exact IH].
  unfold plugin_inits.
  destruct (LoadLibrary w (plugindir ++ p) =? 0); [constructor|].
  destruct (GetProcAddress w _ _ =? 0) eqn:E; constructor; [|constructor].
  now apply Z.eqb_neq.
Qed.


(** ** The patch and the loading *)

Lemma load_plugins_with_patch (ok : bool) (w : World) (plugindir : string)
    (remainingLen : Z) (plugins : list string) :
  load_plugins (with_patch ok w) plugindir remainingLen plugins
  = load_plugins w plugindir remainingLen plugins.
Proof.
  induction plugins as [|p rest IH]; [reflexivity|].
  cbn [load_plugins]. rewrite IH. reflexivity.
Qed.

Lemma AsiLoad_with_patch (ok : bool) (w : World) (hModule : Z) :
  AsiLoad (with_patch ok w) hModule = AsiLoad w hModule.
Proof.
  unfold AsiLoad.
  change (GetModuleHandle (with_patch ok w)) with (GetModuleHandle w).
  change (exe_filename (with_patch ok w)) with (exe_filename w).
  destruct (GetModuleHandle w =? 0); [reflexivity|].
  destruct (DWORD (Z.of_nat (String.length (exe_filename w))) <=? 0); [reflexivity|].
  destruct (directory_end (exe_filename w)) as [n|]; [|reflexivity].
  change (FindFiles (with_patch ok w)) with (FindFiles w).
  destruct (FindFiles w _); [reflexivity|].
  now rewrite load_plugins_with_patch.
Qed.

(** X9: whether the patch succeeds or fails, [DllMain] goes on in the
    same way: it pins, starts the worker or loads the plugins itself, ends
    with the same result and leaves the same globals; a patch that fails
    adds the one dialog "Failed to patch the main function" after the
    attempt and changes nothing else in what [DllMain] does. *)
Theorem failed_patch_only_adds_a_dialog (w : World) (hModule lpReserved : Z)
    (st : State) :
  exists tail,
    trace (DllMain (with_patch true w) hModule DLL_PROCESS_ATTACH lpReserved st)
    = EvCallPatch (patch_address w) (DWORD (addr_WaitForPlugins w)) :: tail
    /\ trace (DllMain (with_patch false w) hModule DLL_PROCESS_ATTACH lpReserved st)
       = EvCallPatch (patch_address w) (DWORD (addr_WaitForPlugins w))
         :: EvMessageBox "Failed to patch the main function" "ASI Loader - Error" MB_OK
         :: tail
    /\ result (DllMain (with_patch false w) hModule DLL_PROCESS_ATTACH lpReserved st)
       = result (DllMain (with_patch true w) hModule DLL_PROCESS_ATTACH lpReserved st)
    /\ final (DllMain (with_patch false w) hModule DLL_PROCESS_ATTACH lpReserved st)
       = final (DllMain (with_patch true w) hModule DLL_PROCESS_ATTACH lpReserved st).
Proof.
  destruct (pin w) as [m|] eqn:Hp.
  - destruct (Z.eq_dec (CreateThread w (addr_AsiLoad w) hModule) 0) as [Hc|Hc].
    + rewrite !(DllMain_degraded _ hModule lpReserved m) by assumption.
      rewrite !AsiLoad_with_patch. cbn [result final trace].
      eexists. repeat split.
    + rewrite !(DllMain_spawned _ hModule lpReserved m) by assumption.
      cbn [result final trace]. eexists. repeat split.
  - rewrite !DllMain_unpinned by assumption.
    rewrite !AsiLoad_with_patch. cbn [result final trace].
    eexists. repeat split.
Qed.

(** ** The thread that loads *)

Lemma loads_attach_events (w : World) : loads (attach_events w) = [].
Proof. unfold attach_events, patch_dialog. now destruct (patched w). Qed.

Lemma searches_attach_events (w : World) : searches (attach_events w) = [].
Proof. unfold attach_events, patch_dialog. now destruct (patched w). Qed.

(** X10: for an identified host whose plugin names fit, what is loaded
    does not depend on the thread that runs [AsiLoad]: whether the worker
    was created, could not be created, or the loader could not be pinned,
    once [DllMain] and the worker are done the plugins directory has been
    searched once, every plugin of the set has been handed to
    [LoadLibrary] once in the order of the set, and the list holds the
    same entry points. *)
Theorem loading_is_the_same_on_either_thread (w : World) (n : nat) (hModule : Z) :
  host_identified w n ->
  names_fit n (discovered w n) ->
  result (startup w hModule initial_state) = Normal tt
  /\ searches (trace (startup w hModule initial_state)) = [search_pattern w n]
  /\ loads (trace (startup w hModule initial_state))
     = map (fun plugin => plugin_directory w n ++ plugin) (discovered w n)
  /\ initialise_vectors (final (startup w hModule initial_state))
     = flat_map (plugin_inits w (plugin_directory w n)) (discovered w n)
  /\ calls (trace (startup w hModule initial_state)) = [].
Proof.
  intros Hh Hf. rewrite (startup_run w n) by assumption.
  cbn [result final trace]. split; [reflexivity|].
  assert (searches (load_events w n) = [search_pattern w n]) as Hs
    by (unfold load_events; cbn [searches]; now rewrite searches_plugin_events).
  assert (loads (load_events w n)
          = map (fun plugin => plugin_directory w n ++ plugin) (discovered w n)) as Hl
    by (unfold load_events; cbn [loads]; now rewrite loads_plugin_events).
  unfold startup_events.
  rewrite searches_app, loads_app, searches_attach_events, loads_attach_events.
  cbn [app]. split; [|split; [|split; [reflexivity|apply calls_startup_events]]].
  - destruct (pin w); [|exact Hs]. cbn [searches]. rewrite searches_app, Hs.
    now destruct (CreateThread w (addr_AsiLoad w) hModule =? 0).
  - destruct (pin w); [|exact Hl]. cbn [loads]. rewrite loads_app, Hl.
    destruct (CreateThread w (addr_AsiLoad w) hModule =? 0); cbn [loads];
      now rewrite app_nil_r.
Qed.

Lemma loading_is_the_same_on_either_thread_witness :
  initialise_vectors (final (startup no_thread_world loader_module initial_state))
  = [0x20001000; 0x30001000]
  /\ initialise_vectors
       (final (startup (with_pin None no_thread_world) loader_module initial_state))
     = [0x20001000; 0x30001000]
  /\ initialise_vectors (final (startup wait_failed_world loader_module initial_state))
     = [0x20001000; 0x30001000].
Proof.
  assert (host_identified (with_pin None no_thread_world) 6) as Hh
    by (split; [discriminate | reflexivity]).
  assert (names_fit 6 (discovered (with_pin None no_thread_world) 6)) as Hf
    by (repeat constructor).
  assert (host_identified wait_failed_world 6) as Hh'
    by (split; [discriminate | reflexivity]).
  assert (names_fit 6 (discovered wait_failed_world 6)) as Hf'
    by (repeat constructor).
  destruct (loading_is_the_same_on_either_thread no_thread_world 6 loader_module
              no_thread_world_identified no_thread_world_fits)
    as (_ & _ & _ & -> & _).
  destruct (loading_is_the_same_on_either_thread (with_pin None no_thread_world) 6
              loader_module Hh Hf) as (_ & _ & _ & -> & _).
  destruct (loading_is_the_same_on_either_thread wait_failed_world 6 loader_module
              Hh' Hf') as (_ & _ & _ & -> & _).
  repeat split.
Defined.

(** X11: when the loader is pinned and the worker thread is created,
    [DllMain] itself searches no directory and loads no library: it only
    makes the patch, the pin and the thread, keeps the thread handle,
    leaves the list of entry points as it was, releases nothing and
    returns [TRUE]. *)
Theorem attach_with_worker_loads_nothing (w : World) (hModule lpReserved m : Z)
    (st : State) :
  pin w = Some m ->
  CreateThread w (addr_AsiLoad w) hModule <> 0 ->
  result (DllMain w hModule DLL_PROCESS_ATTACH lpReserved st) = Normal TRUE
  /\ searches (trace (DllMain w hModule DLL_PROCESS_ATTACH lpReserved st)) = []
  /\ loads (trace (DllMain w hModule DLL_PROCESS_ATTACH lpReserved st)) = []
  /\ starts (trace (DllMain w hModule DLL_PROCESS_ATTACH lpReserved st))
     = [addr_AsiLoad w]
  /\ frees (trace (DllMain w hModule DLL_PROCESS_ATTACH lpReserved st)) = []
  /\ dialogs (trace (DllMain w hModule DLL_PROCESS_ATTACH lpReserved st))
     = patch_dialog w
  /\ initialise_vectors (final (DllMain w hModule DLL_PROCESS_ATTACH lpReserved st))
     = initialise_vectors st
  /\ loader_init_thread_handle
       (final (DllMain w hModule DLL_PROCESS_ATTACH lpReserved st))
     = CreateThread w (addr_AsiLoad w) hModule.
Proof.
  intros Hp Hc. rewrite (DllMain_spawned w hModule lpReserved m) by assumption.
  cbn [result final trace with_handle initialise_vectors loader_init_thread_handle].
  unfold attach_events, patch_dialog. destruct (patched w); repeat split.
Qed.

Lemma attach_with_worker_loads_nothing_witness :
  pin mixed_case_world = Some loader_module
  /\ CreateThread mixed_case_world (addr_AsiLoad mixed_case_world) loader_module <> 0
  /\ loads (trace (DllMain mixed_case_world loader_module DLL_PROCESS_ATTACH 0
                     initial_state)) = [].
Proof.
  assert (CreateThread mixed_case_world (addr_AsiLoad mixed_case_world) loader_module
          <> 0) as Hc by (vm_compute; discriminate).
  split; [reflexivity|]. split; [exact Hc|].
  exact (proj1 (proj2 (proj2 (attach_with_worker_loads_nothing mixed_case_world
                                loader_module 0 loader_module initial_state
                                eq_refl Hc)))).
Defined.

(** X12: when the self-lookup that pins the loader fails, [DllMain]
    creates no thread and releases no module; for an identified host whose
    plugin names fit it loads the plugins itself and returns [TRUE] with
    the entry points recorded and the worker handle as it was. *)
Theorem attach_without_pin_loads_in_place (w : World) (n : nat) (hModule lpReserved : Z)
    (st : State) :
  pin w = None ->
  host_identified w n ->
  names_fit n (discovered w n) ->
  result (DllMain w hModule DLL_PROCESS_ATTACH lpReserved st) = Normal TRUE
  /\ starts (trace (DllMain w hModule DLL_PROCESS_ATTACH lpReserved st)) = []
  /\ frees (trace (DllMain w hModule DLL_PROCESS_ATTACH lpReserved st)) = []
  /\ loads (trace (DllMain w hModule DLL_PROCESS_ATTACH lpReserved st))
     = map (fun plugin => plugin_directory w n ++ plugin) (discovered w n)
  /\ initialise_vectors (final (DllMain w hModule DLL_PROCESS_ATTACH lpReserved st))
     = (initialise_vectors st
        ++ flat_map (plugin_inits w (plugin_directory w n)) (discovered w n))%list
  /\ loader_init_thread_handle
       (final (DllMain w hModule DLL_PROCESS_ATTACH lpReserved st))
     = loader_init_thread_handle st.
Proof.
  intros Hp Hh Hf. rewrite DllMain_unpinned by exact Hp.
  rewrite (AsiLoad_fit w n) by assumption.
  cbn [result final trace then_return recorded initialise_vectors
         loader_init_thread_handle].
  assert (forall t, starts (attach_events w ++ t) = starts t) as Hs
    by (intros t; unfold attach_events, patch_dialog; now destruct (patched w)).
  assert (forall t, frees (attach_events w ++ t) = frees t) as Hr
    by (intros t; unfold attach_events, patch_dialog; now destruct (patched w)).
  assert (forall l, starts (flat_map (plugin_events w (plugin_directory w n)) l) = []
                    /\ frees (flat_map (plugin_events w (plugin_directory w n)) l) = [])
    as He.
  { induction l as [|p rest [IH1 IH2]]; [split; reflexivity|].
    cbn [flat_map]. unfold plugin_events at 1 3.
    destruct (LoadLibrary w (plugin_directory w n ++ p) =? 0); cbn [app starts frees];
      auto. }
  rewrite Hs, Hr, loads_app, loads_attach_events. unfold load_events.
  cbn [starts frees loads app]. rewrite loads_plugin_events.
  destruct (He (discovered w n)) as [-> ->]. repeat split.
Qed.

Lemma attach_without_pin_loads_in_place_witness :
  pin (with_pin None no_thread_world) = None
  /\ starts (trace (DllMain (with_pin None no_thread_world) loader_module
                      DLL_PROCESS_ATTACH 0 initial_state)) = []
  /\ initialise_vectors
       (final (DllMain (with_pin None no_thread_world) loader_module
                 DLL_PROCESS_ATTACH 0 initial_state))
     = [0x20001000; 0x30001000].
Proof.
  assert (host_identified (with_pin None no_thread_world) 6) as Hh
    by (split; [discriminate | reflexivity]).
  assert (names_fit 6 (discovered (with_pin None no_thread_world) 6)) as Hf
    by (repeat constructor).
  destruct (attach_without_pin_loads_in_place (with_pin None no_thread_world) 6
              loader_module 0 initial_state eq_refl Hh Hf)
    as (_ & Hs & _ & _ & Hv & _).
  split; [reflexivity|]. split; [exact Hs|]. rewrite Hv. reflexivity.
Defined.

(** ** Runs of the trigger *)

Lemma waits_app (t1 t2 : list Event) : waits (t1 ++ t2) = (waits t1 ++ waits t2)%list.
Proof.
  induction t1 as [|e t1 IH]; [reflexivity|].
  destruct e; simpl; congruence.
Qed.

Lemma waits_map_EvInitAsi (inits : list Z) : waits (map EvInitAsi inits) = [].
Proof. induction inits; simpl; congruence. Qed.

Lemma waits_join_events (w : World) (st : State) :
  waits (join_events w st)
  = if loader_init_thread_handle st =? 0 then [] else [loader_init_thread_handle st].
Proof.
  unfold join_events.
  destruct (loader_init_thread_handle st =? 0); [reflexivity|]. cbn [waits].
  now destruct (WaitForSingleObject w _ _ =? WAIT_OBJECT_0).
Qed.

Lemma waits_fire_events (w : World) (reached : nat) (st : State) :
  waits (fire_events w reached st)
  = match reached with
    | O => []
    | S _ =>
        if loader_init_thread_handle st =? 0 then [] else [loader_init_thread_handle st]
    end.
Proof.
  destruct reached as [|k]; [reflexivity|]. cbn [fire_events].
  rewrite !waits_app, waits_join_events, waits_map_EvInitAsi, app_nil_r.
  assert (waits (fire_events w k (joined st)) = []) as ->; [|now rewrite app_nil_r].
  assert (loader_init_thread_handle (joined st) = 0) as H0 by reflexivity.
  revert H0. generalize (joined st). clear st.
  induction k as [|k IH]; intros st H0; [reflexivity|]. cbn [fire_events].
  rewrite !waits_app, waits_join_events, waits_map_EvInitAsi, H0. cbn [Z.eqb app].
  now apply IH.
Qed.

Lemma waits_startup_events (w : World) (n : nat) (hModule : Z) :
  waits (startup_events w n hModule) = [].
Proof.
  assert (forall l, waits (flat_map (plugin_events w (plugin_directory w n)) l) = [])
    as He.
  { induction l as [|p rest IH]; [reflexivity|].
    cbn [flat_map]. unfold plugin_events at 1.
    destruct (LoadLibrary w (plugin_directory w n ++ p) =? 0); cbn [app waits]; auto. }
  unfold startup_events, load_events, attach_events, patch_dialog.
  rewrite !waits_app.
  destruct (patched w); destruct (pin w); cbn [waits app];
    rewrite ?waits_app, He; [| reflexivity | | reflexivity];
    now destruct (CreateThread w (addr_AsiLoad w) hModule =? 0).
Qed.

(** X13: the trigger keeps no record of having run.  For an identified
    host whose plugin names fit, when the host runs the patched call site
    [reached] times, every recorded entry point is called [reached] times,
    list after list; no null pointer is ever called; and the worker is
    waited for at most once, in the first run, since that run clears the
    handle. *)
Theorem every_run_of_the_trigger_calls_the_list (w : World) (n : nat) (hModule : Z)
    (reached : nat) :
  host_identified w n ->
  names_fit n (discovered w n) ->
  calls (trace (lifetime w hModule reached))
  = List.concat
      (repeat (flat_map (plugin_inits w (plugin_directory w n)) (discovered w n))
         reached)
  /\ Forall (fun init => init <> 0) (calls (trace (lifetime w hModule reached)))
  /\ waits (trace (lifetime w hModule reached))
     = match reached with
       | O => []
       | S _ => if spawned w hModule =? 0 then [] else [spawned w hModule]
       end.
Proof.
  intros Hh Hf.
  assert (calls (trace (lifetime w hModule reached))
          = List.concat (repeat (loaded_inits w n) reached)) as Hc
    by (apply calls_lifetime; assumption).
  split; [exact Hc|]. split.
  - rewrite Hc. apply Forall_concat. apply Forall_forall.
    intros l Hl. apply repeat_spec in Hl. subst l. apply plugin_inits_nonnull.
  - rewrite (lifetime_run w n) by assumption. cbn [trace].
    rewrite waits_app, waits_startup_events, waits_fire_events. reflexivity.
Qed.

Lemma every_run_of_the_trigger_calls_the_list_witness :
  calls (trace (lifetime mixed_case_world loader_module 2))
  = [0x30001000; 0x20001000; 0x30001000; 0x20001000]
  /\ waits (trace (lifetime mixed_case_world loader_module 2)) = [0x1A4].
Proof.
  destruct (every_run_of_the_trigger_calls_the_list mixed_case_world 6 loader_module 2
              mixed_case_world_identified mixed_case_world_fits)
    as (Hc & _ & Hw).
  rewrite Hc, Hw. split; reflexivity.
Defined.

(** X14: when the worker handle is not null and the wait on it returns
    [WAIT_OBJECT_0], the trigger shows no dialog: it waits without time
    limit, clears the handle, calls every recorded entry point in the
    order of the list and returns 1. *)
Theorem signaled_wait_fires_silently (w : World) (st : State) :
  loader_init_thread_handle st <> 0 ->
  WaitForSingleObject w (loader_init_thread_handle st) INFINITE = WAIT_OBJECT_0 ->
  WaitForPlugins w st
  = mkRun (Normal 1) (joined st)
      (EvWaitForSingleObject (loader_init_thread_handle st) 0xFFFFFFFF
       :: map EvInitAsi (initialise_vectors st)).
Proof.
  intros Hh Hs. rewrite WaitForPlugins_run. unfold join_events.
  apply Z.eqb_neq in Hh. rewrite Hh, Hs. reflexivity.
Qed.

Lemma signaled_wait_fires_silently_witness :
  loader_init_thread_handle (loaded_state mixed_case_world 6 loader_module) <> 0
  /\ dialogs (trace (WaitForPlugins mixed_case_world
                       (loaded_state mixed_case_world 6 loader_module))) = [].
Proof.
  assert (loader_init_thread_handle (loaded_state mixed_case_world 6 loader_module)
          <> 0) as Hh by (vm_compute; discriminate).
  split; [exact Hh|].
  rewrite (signaled_wait_fires_silently mixed_case_world _ Hh eq_refl).
  reflexivity.
Defined.

(** X15: for every state whose list of entry points holds no null
    pointer, as every list that [AsiLoad] builds, and whatever the wait
    answers, a run of the trigger returns 1, leaves the list of entry
    points and the running flag as they were, leaves the handle null,
    searches no directory, loads no library, waits at most once, shows
    at most one dialog and calls through no null pointer. *)
Theorem trigger_always_returns_one (w : World) (st : State) :
  Forall (fun init => init <> 0) (initialise_vectors st) ->
  result (WaitForPlugins w st) = Normal 1
  /\ initialise_vectors (final (WaitForPlugins w st)) = initialise_vectors st
  /\ loader_init_thread_running (final (WaitForPlugins w st))
     = loader_init_thread_running st
  /\ loader_init_thread_handle (final (WaitForPlugins w st)) = 0
  /\ searches (trace (WaitForPlugins w st)) = []
  /\ loads (trace (WaitForPlugins w st)) = []
  /\ (List.length (waits (trace (WaitForPlugins w st))) <= 1)%nat
  /\ (List.length (dialogs (trace (WaitForPlugins w st))) <= 1)%nat
  /\ Forall (fun init => init <> 0) (calls (trace (WaitForPlugins w st))).
Proof.
  intros Hnonnull.
  assert (Forall (fun init => init <> 0) (calls (trace (WaitForPlugins w st))))
    as Hcalls.
  { rewrite WaitForPlugins_run. cbn [trace].
    now rewrite calls_app, calls_join_events, calls_map_EvInitAsi. }
  revert Hcalls.
  rewrite WaitForPlugins_run. cbn [result final trace]. intros Hcalls.
  assert (forall l, searches (map EvInitAsi l) = [] /\ loads (map EvInitAsi l) = []
                    /\ dialogs (map EvInitAsi l) = []) as Hm
    by (induction l as [|i l (H1 & H2 & H3)]; simpl; auto).
  destruct (Hm (initialise_vectors st)) as (Hs & Hl & Hd).
  rewrite searches_app, loads_app, waits_app, dialogs_app, Hs, Hl, Hd,
    waits_map_EvInitAsi, !app_nil_r.
  clear Hnonnull. set (P := Forall (fun init => init <> 0) (calls _)) in *.
  clearbody P.
  unfold join_events.
  destruct (loader_init_thread_handle st =? 0); cbn [searches loads waits dialogs];
    [repeat split; try exact Hcalls; simpl; lia|].
  destruct (WaitForSingleObject w _ _ =? WAIT_OBJECT_0);
    repeat split; try exact Hcalls; simpl; lia.
Qed.

Lemma trigger_always_returns_one_witness :
  Forall (fun init => init <> 0)
    (initialise_vectors (loaded_state wait_failed_world 6 loader_module))
  /\ result (WaitForPlugins wait_failed_world
               (loaded_state wait_failed_world 6 loader_module)) = Normal 1.
Proof.
  assert (Forall (fun init => init <> 0)
            (initialise_vectors (loaded_state wait_failed_world 6 loader_module)))
    as H by (repeat constructor; discriminate).
  split; [exact H|].
  exact (proj1 (trigger_always_returns_one wait_failed_world _ H)).
Defined.

(** ** A host without module handle or file name, in every function *)

(** X16: when the module handle of the host is null or its file name is
    empty, nothing is searched or loaded and the list of entry points is
    changed by no function, on whichever thread [AsiLoad] runs: [AsiLoad]
    ends in [ExitProcess] with the list as it was; [DllMain], in each of
    its branches and for every notification, searches nothing, loads
    nothing, calls nothing and leaves the list as it was; so the list
    stays empty, and a run of the trigger on an empty list calls nothing
    and leaves it empty. *)
Theorem unidentified_host_loads_nothing (w : World) :
  GetModuleHandle w = 0 \/ GetModuleFileName w (GetModuleHandle w) = "" ->
  (forall hModule st,
      result (AsiLoad w hModule st) = Exited 0
      /\ final (AsiLoad w hModule st) = st
      /\ searches (trace (AsiLoad w hModule st)) = []
      /\ loads (trace (AsiLoad w hModule st)) = [])
  /\ (forall hModule reason lpReserved st,
         searches (trace (DllMain w hModule reason lpReserved st)) = []
         /\ loads (trace (DllMain w hModule reason lpReserved st)) = []
         /\ calls (trace (DllMain w hModule reason lpReserved st)) = []
         /\ initialise_vectors (final (DllMain w hModule reason lpReserved st))
            = initialise_vectors st)
  /\ (forall st,
         initialise_vectors st = [] ->
         calls (trace (WaitForPlugins w st)) = []
         /\ initialise_vectors (final (WaitForPlugins w st)) = []).
Proof.
  intros H.
  assert (forall hModule st,
             exists err call,
               AsiLoad w hModule st
               = mkRun (Exited 0) st [fatal_dialog w err call; EvExitProcess 0])
    as Hload.
  { intros hModule st.
    destruct (Z.eq_dec (GetModuleHandle w) 0) as [E|E].
    - rewrite AsiLoad_no_module by exact E. eauto.
    - destruct H as [H|H]; [contradiction|].
      rewrite AsiLoad_no_filename by assumption. eauto. }
  assert (forall t, searches (attach_events w ++ t) = searches t) as Ha1
    by (intros t; unfold attach_events, patch_dialog; now destruct (patched w)).
  assert (forall t, loads (attach_events w ++ t) = loads t) as Ha2
    by (intros t; unfold attach_events, patch_dialog; now destruct (patched w)).
  split; [|split].
  - intros hModule st. destruct (Hload hModule st) as (err & call & ->).
    repeat split.
  - intros hModule reason lpReserved st.
    split; [|split; [|split; [apply calls_DllMain|]]];
      (destruct (Z.eq_dec reason DLL_PROCESS_ATTACH) as [->|Hr];
       [|now rewrite DllMain_other]);
      (destruct (pin w) as [m|] eqn:Hp;
       [destruct (Z.eq_dec (CreateThread w (addr_AsiLoad w) hModule) 0) as [Hc|Hc];
        [rewrite (DllMain_degraded w hModule lpReserved m) by assumption;
         destruct (Hload 0 (joined st)) as (err & call & ->)
        |rewrite (DllMain_spawned w hModule lpReserved m) by assumption]
       |rewrite DllMain_unpinned by assumption;
        destruct (Hload 0 st) as (err & call & ->)]);
      cbn [result final trace returned]; rewrite ?Ha1, ?Ha2; reflexivity.
  - intros st Hv. rewrite WaitForPlugins_run. cbn [final trace].
    rewrite calls_app, calls_join_events, calls_map_EvInitAsi.
    cbn [joined with_handle initialise_vectors]. auto.
Qed.

Lemma unidentified_host_loads_nothing_witness :
  (GetModuleHandle no_module_world = 0
   \/ GetModuleFileName no_module_world (GetModuleHandle no_module_world) = "")
  /\ loads (trace (DllMain no_module_world loader_module DLL_PROCESS_ATTACH 0
                     initial_state)) = []
  /\ initialise_vectors
       (final (DllMain no_module_world loader_module DLL_PROCESS_ATTACH 0 initial_state))
     = [].
Proof.
  assert (GetModuleHandle no_module_world = 0
          \/ GetModuleFileName no_module_world (GetModuleHandle no_module_world) = "")
    as H by (left; reflexivity).
  split; [exact H|].
  destruct (proj1 (proj2 (unidentified_host_loads_nothing no_module_world H))
              loader_module DLL_PROCESS_ATTACH 0 initial_state)
    as (_ & Hl & _ & Hv).
  split; [exact Hl | exact Hv].
Defined.

(** ** A process in which nothing fails *)

Lemma dialogs_join_events_signaled (w : World) (st : State) :
  loader_init_thread_handle st <> 0 ->
  WaitForSingleObject w (loader_init_thread_handle st) INFINITE = WAIT_OBJECT_0 ->
  dialogs (join_events w st) = [].
Proof.
  intros Hh Hs. unfold join_events. apply Z.eqb_neq in Hh. rewrite Hh, Hs. reflexivity.
Qed.

Lemma no_warning_when_all_map (w : World) (plugindir : string) (plugins : list string) :
  (forall plugin, In plugin plugins -> LoadLibrary w (plugindir ++ plugin) <> 0) ->
  dialogs (flat_map (plugin_events w plugindir) plugins) = [].
Proof.
  intros H. rewrite dialogs_plugin_events.
  induction plugins as [|p rest IH]; [reflexivity|]. cbn [filter]. unfold maps at 1.
  assert ((LoadLibrary w (plugindir ++ p) =? 0) = false) as ->
    by (apply Z.eqb_neq, H; now left).
  cbn [negb]. apply IH. intros q Hq. apply H. now right.
Qed.

(** X17: for an identified host whose plugin names fit, when the patch
    succeeds, the loader is pinned, the worker thread is created, every
    plugin of the set maps and the wait on the worker returns
    [WAIT_OBJECT_0], the process shows no dialog at all up to and
    including the first run of the trigger. *)
Theorem no_dialog_when_nothing_fails (w : World) (n : nat) (hModule m : Z) :
  host_identified w n ->
  names_fit n (discovered w n) ->
  patched w = true ->
  pin w = Some m ->
  CreateThread w (addr_AsiLoad w) hModule <> 0 ->
  WaitForSingleObject w (CreateThread w (addr_AsiLoad w) hModule) INFINITE
  = WAIT_OBJECT_0 ->
  (forall plugin,
      In plugin (discovered w n) ->
      LoadLibrary w (plugin_directory w n ++ plugin) <> 0) ->
  result (lifetime w hModule 1) = Normal tt
  /\ dialogs (trace (lifetime w hModule 1)) = [].
Proof.
  intros Hh Hf Hpatch Hp Hc Hs Hmap.
  rewrite (lifetime_run w n) by assumption. cbn [result trace fire_events].
  split; [reflexivity|].
  assert (loader_init_thread_handle (loaded_state w n hModule)
          = CreateThread w (addr_AsiLoad w) hModule) as Hhandle
    by (unfold loaded_state, spawned; now rewrite Hp).
  rewrite !dialogs_app, app_nil_r.
  rewrite dialogs_join_events_signaled by (rewrite Hhandle; assumption).
  assert (forall l, dialogs (map EvInitAsi l) = []) as ->
    by (induction l; simpl; auto).
  rewrite !app_nil_r. unfold startup_events, attach_events, patch_dialog, load_events.
  rewrite Hpatch, Hp. apply Z.eqb_neq in Hc. rewrite Hc.
  cbn [app dialogs]. rewrite dialogs_app, no_warning_when_all_map by exact Hmap.
  reflexivity.
Qed.

Lemma no_dialog_when_nothing_fails_witness :
  patched mixed_case_world = true
  /\ pin mixed_case_world = Some loader_module
  /\ dialogs (trace (lifetime mixed_case_world loader_module 1)) = [].
Proof.
  assert (CreateThread mixed_case_world (addr_AsiLoad mixed_case_world) loader_module
          <> 0) as Hc by (vm_compute; discriminate).
  assert (forall plugin,
             In plugin (discovered mixed_case_world 6) ->
             LoadLibrary mixed_case_world
               (plugin_directory mixed_case_world 6 ++ plugin) <> 0) as Hmap
    by (intros plugin [<-|[<-|[]]]; vm_compute; discriminate).
  split; [reflexivity|]. split; [reflexivity|].
  exact (proj2 (no_dialog_when_nothing_fails mixed_case_world 6 loader_module
                  loader_module mixed_case_world_identified mixed_case_world_fits
                  eq_refl eq_refl Hc eq_refl Hmap)).
Defined.
